(** * Block validation of protocol/validation/block.go

    A shallow embedding of [checkBlockTime], [checkCoinbaseAmount],
    [ValidateBlockHeader] and [ValidateBlock], followed by the properties
    of the block-acceptance pipeline.

    Go's [uint64] values are integers of [Z] with the wrap-around written
    out ([add64], [u64]); bytes are integers between 0 and 255; a Go
    [string] is a Rocq [string] (a sequence of bytes); the authority
    registry [map[string]string] is a [gmap string string]; a Go [error]
    is an [option Error] whose [None] is [nil]. *)

From Stdlib Require Import ZArith List String Ascii Bool Lia.
From stdpp Require Import base option gmap strings list.

Local Open Scope string_scope.
Local Open Scope list_scope.
Local Open Scope Z_scope.

(** ** Machine integers *)

Definition two64 : Z := 2 ^ 64.

(** The conversion [uint64(x)]. *)
Definition u64 (x : Z) : Z := x mod two64.

(** Addition of two [uint64] values. *)
Definition add64 (a b : Z) : Z := (a + b) mod two64.

(** ** Hashes and errors *)

(** Modelled from the spec: [bc.Hash] is declared outside block.go; the
    spec compares identifiers byte for byte, the Go code with [==] on the
    struct of four 64-bit words. *)
Module Hash.
Record t : Type := mk { V0 : Z; V1 : Z; V2 : Z; V3 : Z }.

Definition eqb (x y : t) : bool :=
  (V0 x =? V0 y) && (V1 x =? V1 y) && (V2 x =? V2 y) && (V3 x =? V3 y).

End Hash.

(** An argument of a [%d] or [%x] verb of a format string. *)
Inductive fmt_arg : Type :=
| ArgInt (z : Z)
| ArgHash (h : Hash.t).

(** The errors that can leave this file.  The first eight are the
    package-level sentinels of block.go; [ErrWrongCoinbaseTransaction] is
    the exported sentinel of the package; [errors_New] is a fresh
    [errors.New(msg)]; [Wrapped] and [WithDetail] are what [errors.Wrap],
    [errors.Wrapf] and [errors.WithDetailf] build around a present error;
    the last two are the errors of [encoding/hex]. *)
Inductive Error : Type :=
| errBadTimestamp
| errBadBits
| errMismatchedBlock
| errMismatchedMerkleRoot
| errMisorderedBlockHeight
| errOverBlockLimit
| errWorkProof
| errVersionRegression
| ErrWrongCoinbaseTransaction
| errors_New (msg : string)
| Wrapped (e : Error) (msg : string) (args : list fmt_arg)
| WithDetail (e : Error) (msg : string) (args : list fmt_arg)
| hex_InvalidByteError (c : Z)
| hex_ErrLength.

(** The test [err != nil]. *)
Definition not_nil (err : option Error) : bool :=
  match err with Some _ => true | None => false end.

(** ** encoding/hex *)

Module hex.

(** The byte of a character of a Go string. *)
Definition byte_of (c : ascii) : Z := Z.of_N (N_of_ascii c).

Definition bytes_of (s : string) : list Z := map byte_of (list_ascii_of_string s).

(** [reverseHexTable]: the value of a hexadecimal digit, in either case. *)
Definition fromHexChar (c : Z) : option Z :=
  if (48 <=? c) && (c <=? 57) then Some (c - 48)
  else if (97 <=? c) && (c <=? 102) then Some (c - 97 + 10)
  else if (65 <=? c) && (c <=? 70) then Some (c - 65 + 10)
  else None.

Definition isHexChar (c : Z) : bool :=
  match fromHexChar c with Some _ => true | None => false end.

(** [hex.Decode]: the bytes decoded so far and the error, if any.  An
    invalid character is reported before an odd length. *)
Fixpoint Decode (src : list Z) : list Z * option Error :=
  match src with
  | [] => ([], None)
  | [p] =>
      match fromHexChar p with
      | None => ([], Some (hex_InvalidByteError p))
      | Some _ => ([], Some hex_ErrLength)
      end
  | p :: q :: rest =>
      match fromHexChar p, fromHexChar q with
      | None, _ => ([], Some (hex_InvalidByteError p))
      | Some _, None => ([], Some (hex_InvalidByteError q))
      | Some a, Some b =>
          let '(out, err) := Decode rest in
          (Z.lor (Z.shiftl a 4) b :: out, err)
      end
  end.

Definition DecodeString (s : string) : list Z * option Error :=
  Decode (bytes_of s).

(** What the spec calls a well-formed hex-encoded key: an even number of
    characters, each one a hexadecimal digit. *)
Definition well_formed (s : string) : bool :=
  Nat.even (length (bytes_of s))
  && forallb isHexChar (bytes_of s).

End hex.

(** ** The data model *)

(** Modelled from the spec: the types of package [bc] are declared outside
    block.go.  Only the fields that block.go reads or writes are kept; the
    pointer fields of a block built by the mapper are never [nil], except
    the proof and the transaction status, which the code may find absent. *)
Module bc.

Record TxVerifyResult : Type := { StatusFail : bool }.

(** The status bitmap: one flag per transaction, in index order. *)
Module TransactionStatus.
Record t : Type := mk { Version : Z; VerifyStatus : list TxVerifyResult }.

(** Modelled from the spec: [SetStatus] is declared outside block.go.  It
    records the flag of the transaction of index [i] in the bitmap: at the
    end it appends, inside it overwrites, and it refuses an index beyond
    the end, the flags being set one by one in index order. *)
Definition SetStatus (ts : t) (i : nat) (gasOnly : bool) : Error + t :=
  if (length (VerifyStatus ts) <? i)%nat then
    inl (errors_New "setStatus should be set one by one")
  else if (i =? length (VerifyStatus ts))%nat then
    inr (mk (Version ts) (VerifyStatus ts ++ [Build_TxVerifyResult gasOnly]))
  else
    inr (mk (Version ts) (<[i := Build_TxVerifyResult gasOnly]> (VerifyStatus ts))).
End TransactionStatus.

(** Modelled from the spec: [NewTransactionStatus] is declared outside
    block.go; it makes the fresh, empty status of a validation run. *)
Definition NewTransactionStatus : TransactionStatus.t :=
  TransactionStatus.mk 1 [].

Record AssetAmount : Type := { Amount : Z }.
Record ValueSource : Type := { Value : AssetAmount }.
Record Output : Type := { Source : ValueSource }.

(** A transaction: its identifier and the identifiers of its results. *)
Record Tx : Type := { ID : Hash.t; ResultIds : list Hash.t }.

(** The proposer's proof: a signature and a control program. *)
Record Proof : Type := { Sign : list Z; ControlProgram : string }.

Record Block : Type := mkBlock {
  Version : Z;
  Height : Z;
  PreviousBlockId : Hash.t;
  Timestamp : Z;
  TransactionsRoot : Hash.t;
  TransactionStatusHash : Hash.t;
  Bits : Z;
  TransactionStatus : option TransactionStatus.t;
  GetProof : option Proof;
  Transactions : list Tx
}.

(** The getters of an absent proof return empty byte strings. *)
Definition GetControlProgram (p : option Proof) : string :=
  match p with Some p => ControlProgram p | None => "" end.

Definition GetSign (p : option Proof) : list Z :=
  match p with Some p => Sign p | None => [] end.

(** The assignment [b.TransactionStatus = ts]. *)
Definition set_TransactionStatus (b : Block) (ts : TransactionStatus.t) : Block :=
  mkBlock (Version b) (Height b) (PreviousBlockId b) (Timestamp b)
    (TransactionsRoot b) (TransactionStatusHash b) (Bits b) (Some ts)
    (GetProof b) (Transactions b).

End bc.

(** Modelled from the spec: [state.BlockNode] is declared outside block.go;
    the next required difficulty bits and the past median time are values
    attached to the parent node. *)
Module state.
Record BlockNode : Type := {
  Version : Z;
  Height : Z;
  Hash : Hash.t;
  CalcNextBits : Z;
  CalcPastMedianTime : Z
}.
End state.

(** Modelled from the spec: [types.Block] is the block in its canonical
    form; block.go only takes its text encoding, dropping the error. *)
Module types.
Record Block : Type := { MarshalText : list Z }.
End types.

(** Modelled from the spec: [GasState] is declared outside block.go; it
    is what [ValidateTx] reports for one transaction: its fee contribution,
    the gas it used, which block.go converts with [uint64(...)], and
    whether it is gas-valid. *)
Record GasState : Type := {
  BTMValue : Z;
  GasUsed : Z;
  GasValid : bool
}.

(** [chainkd.XPub] is an array of 64 bytes; [copy(xpub[:], tmp[:])] fills
    the front of a zeroed array with at most 64 bytes of [tmp]. *)
Definition XPub : Type := list Z.

Definition copy_xpub (tmp : list Z) : XPub :=
  firstn 64 tmp ++ repeat 0 (64 - length tmp)%nat.

(** ** The collaborators

    What block.go consumes from other packages: the consensus constants and
    reward schedule, the clock, the signature primitive, the per-transaction
    validator, the lookup of an output in a transaction and the two merkle
    roots.  [Wrapf_nil] is what [errors.Wrapf] returns when it is handed a
    [nil] error, which block.go does not fix. *)
Class Collaborators : Type := {
  MaxTimeOffsetSeconds : Z;
  MaxBlockGas : Z;
  BlockSubsidy : Z -> Z;
  Now_Unix : Z;
  Verify : XPub -> list Z -> list Z -> bool;
  ValidateTx : bc.Tx -> bc.Block -> GasState * option Error;
  Output : bc.Tx -> Hash.t -> Error + bc.Output;
  TxMerkleRoot : list bc.Tx -> Hash.t * option Error;
  TxStatusMerkleRoot : list bc.TxVerifyResult -> Hash.t * option Error;
  Wrapf_nil : option Error
}.

(** [errors.Wrap] and [errors.WithDetailf] around an error that is there. *)
Definition Wrap (e : Error) (msg : string) : Error := Wrapped e msg [].
Definition WithDetailf (e : Error) (msg : string) (args : list fmt_arg) : Error :=
  WithDetail e msg args.

(** [errors.Wrapf] around an error that may be [nil]. *)
Definition Wrapf `{Collaborators} (err : option Error) (msg : string)
    (args : list fmt_arg) : option Error :=
  match err with
  | Some e => Some (Wrapped e msg args)
  | None => Wrapf_nil
  end.

(** ** Running a Go function

    A function either returns an error value or panics.  [ValidateBlock]
    works on the block behind the pointer [b], which it mutates; the state
    of a run is that block together with the validation steps made so far,
    each with what it was given and what it answered.  The list of steps
    is ghost state: it only serves to say which steps ran. *)

Inductive outcome : Type :=
| Returned (err : option Error)
| Panicked (reason : string).

Inductive Event : Type :=
| EvVerify (xpub : XPub) (msg sign : list Z) (ok : bool)
| EvValidateTx (i : nat) (tx : bc.Tx) (gasStatus : GasState) (err : option Error)
| EvCheckCoinbaseAmount (amount : Z)
| EvTxMerkleRoot (txs : list bc.Tx)
| EvTxStatusMerkleRoot (status : list bc.TxVerifyResult).

Record St : Type := mkSt { blk : bc.Block; calls : list Event }.

(** One statement: it goes on to the next one with a value, or it leaves
    the function. *)
Inductive step (A : Type) : Type :=
| Next (a : A)
| Done (o : outcome).
Arguments Next {A} a.
Arguments Done {A} o.

Definition M (A : Type) : Type := St -> step A * St.

Definition ret {A} (a : A) : M A := fun s => (Next a, s).

Definition bind {A B} (m : M A) (k : A -> M B) : M B :=
  fun s =>
    match m s with
    | (Next a, s') => k a s'
    | (Done o, s') => (Done o, s')
    end.

Declare Scope go_scope.
Notation "x <- m ;; k" := (bind m (fun x => k))
  (at level 100, m at next level, right associativity) : go_scope.
Notation "m ;; k" := (bind m (fun _ => k))
  (at level 100, right associativity) : go_scope.
Local Open Scope go_scope.

(** The statement [return err]. *)
Definition go_return {A} (err : option Error) : M A :=
  fun s => (Done (Returned err), s).

(** The statement [if err != nil { return err }]. *)
Definition check (err : option Error) : M unit :=
  match err with
  | Some e => go_return (Some e)
  | None => ret tt
  end.

(** The same for a callee that may have panicked. *)
Definition check_outcome (o : outcome) : M unit :=
  match o with
  | Returned None => ret tt
  | _ => fun s => (Done o, s)
  end.

Definition getBlock : M bc.Block := fun s => (Next (blk s), s).

Definition putBlock (b : bc.Block) : M unit := fun s => (Next tt, mkSt b (calls s)).

Definition log (e : Event) : M unit :=
  fun s => (Next tt, mkSt (blk s) (calls s ++ [e])).

(** Falling off the end of the body is [return nil]. *)
Definition run (m : M unit) (s : St) : outcome * St :=
  match m s with
  | (Next _, s') => (Returned None, s')
  | (Done o, s') => (o, s')
  end.

(** ** block.go *)

Section Validation.
Context `{Collaborators}.

Definition checkBlockTime (b : bc.Block) (parent : state.BlockNode) : option Error :=
  if add64 (u64 Now_Unix) MaxTimeOffsetSeconds <? bc.Timestamp b then
    Some errBadTimestamp
  else if bc.Timestamp b <=? state.CalcPastMedianTime parent then
    Some errBadTimestamp
  else None.

Definition checkCoinbaseAmount (b : bc.Block) (amount : Z) : outcome :=
  match bc.Transactions b with
  | [] => Returned (Some (Wrap ErrWrongCoinbaseTransaction "block is empty"))
  | tx :: _ =>
      match bc.ResultIds tx with
      | [] => Panicked "index out of range"
      | id :: _ =>
          match Output tx id with
          | inl err => Returned (Some err)
          | inr output =>
              if negb (bc.Amount (bc.Value (bc.Source output)) =? amount) then
                Returned (Some (Wrap ErrWrongCoinbaseTransaction "dismatch output amount"))
              else Returned None
          end
      end
  end.

Definition ValidateBlockHeader (b : bc.Block) (parent : state.BlockNode) : option Error :=
  if bc.Version b <? state.Version parent then
    Some (WithDetailf errVersionRegression
            "previous block verson %d, current block version %d"
            [ArgInt (state.Version parent); ArgInt (bc.Version b)])
  else if negb (bc.Height b =? add64 (state.Height parent) 1) then
    Some (WithDetailf errMisorderedBlockHeight
            "previous block height %d, current block height %d"
            [ArgInt (state.Height parent); ArgInt (bc.Height b)])
  else if negb (bc.Bits b =? state.CalcNextBits parent) then
    Some errBadBits
  else if negb (Hash.eqb (state.Hash parent) (bc.PreviousBlockId b)) then
    Some (WithDetailf errMismatchedBlock
            "previous block ID %x, current block wants %x"
            [ArgHash (state.Hash parent); ArgHash (bc.PreviousBlockId b)])
  else
    match checkBlockTime b parent with
    | Some err => Some err
    | None => None
    end.

(** [b.TransactionStatus.SetStatus(i, gasOnly)], with its error check. *)
Definition setStatus (i : nat) (gasOnly : bool) : M unit :=
  b <- getBlock ;;
  match bc.TransactionStatus b with
  | None => fun s => (Done (Panicked "nil pointer dereference"), s)
  | Some ts =>
      match bc.TransactionStatus.SetStatus ts i gasOnly with
      | inl err => go_return (Some err)
      | inr ts' => putBlock (bc.set_TransactionStatus b ts')
      end
  end.

(** The body of [for i, tx := range b.Transactions], from index [i] on;
    it hands the two running totals to what follows the loop. *)
Fixpoint txLoop (txs : list bc.Tx) (i : nat) (blockGasSum coinbaseAmount : Z)
    : M (Z * Z) :=
  match txs with
  | [] => ret (blockGasSum, coinbaseAmount)
  | tx :: rest =>
      b <- getBlock ;;
      let '(gasStatus, err) := ValidateTx tx b in
      log (EvValidateTx i tx gasStatus err) ;;
      if negb (GasValid gasStatus) then
        go_return (Wrapf err "validate of transaction %d of %d"
                     [ArgInt (Z.of_nat i); ArgInt (Z.of_nat (length (bc.Transactions b)))])
      else
        setStatus i (not_nil err) ;;
        let coinbaseAmount := add64 coinbaseAmount (BTMValue gasStatus) in
        let blockGasSum := add64 blockGasSum (u64 (GasUsed gasStatus)) in
        if MaxBlockGas <? blockGasSum then go_return (Some errOverBlockLimit)
        else txLoop rest (S i) blockGasSum coinbaseAmount
  end.

(** Lines 117 to 132: the two merkle commitments. *)
Definition checkMerkleRoots : M unit :=
  b <- getBlock ;;
  let '(txMerkleRoot, err) := TxMerkleRoot (bc.Transactions b) in
  log (EvTxMerkleRoot (bc.Transactions b)) ;;
  match err with
  | Some e => go_return (Some (Wrap e "computing transaction id merkle root"))
  | None =>
      if negb (Hash.eqb txMerkleRoot (bc.TransactionsRoot b)) then
        go_return (Some (WithDetailf errMismatchedMerkleRoot
                           "transaction id merkle root" []))
      else
        match bc.TransactionStatus b with
        | None => fun s => (Done (Panicked "nil pointer dereference"), s)
        | Some ts =>
            let status := bc.TransactionStatus.VerifyStatus ts in
            let '(txStatusHash, err) := TxStatusMerkleRoot status in
            log (EvTxStatusMerkleRoot status) ;;
            match err with
            | Some e =>
                go_return (Some (Wrap e "computing transaction status merkle root"))
            | None =>
                if negb (Hash.eqb txStatusHash (bc.TransactionStatusHash b)) then
                  go_return (Some (WithDetailf errMismatchedMerkleRoot
                                     "transaction status merkle root" []))
                else go_return None
            end
        end
  end.

(** Lines 113 to 132: what follows the loop. *)
Definition ValidateBlock_tail (coinbaseAmount : Z) : M unit :=
  b <- getBlock ;;
  log (EvCheckCoinbaseAmount coinbaseAmount) ;;
  check_outcome (checkCoinbaseAmount b coinbaseAmount) ;;
  checkMerkleRoots.

(** The body of [ValidateBlock]; [BlockSubsidy] returns a [uint64]. *)
Definition ValidateBlock_body (parent : state.BlockNode) (block : types.Block)
    (authoritys : gmap string string) (position : Z) : M unit :=
  b <- getBlock ;;
  check (ValidateBlockHeader b parent) ;;
  let controlProgram := bc.GetControlProgram (bc.GetProof b) in
  let '(tmp, err) := hex.DecodeString (default "" (authoritys !! controlProgram)) in
  check err ;;
  let xpub := copy_xpub tmp in
  let msg := types.MarshalText block in
  let sign := bc.GetSign (bc.GetProof b) in
  let ok := Verify xpub msg sign in
  log (EvVerify xpub msg sign ok) ;;
  if negb ok then go_return (Some (errors_New "Verification signature failed"))
  else
    let blockGasSum := 0 in
    let coinbaseAmount := u64 (BlockSubsidy (bc.Height b)) in
    putBlock (bc.set_TransactionStatus b bc.NewTransactionStatus) ;;
    sums <- txLoop (bc.Transactions b) 0 blockGasSum coinbaseAmount ;;
    ValidateBlock_tail (snd sums).

(** [ValidateBlock(b, parent, block, authoritys, position)]: what it
    returns, the block it leaves behind [b] and the steps it made. *)
Definition ValidateBlock (b : bc.Block) (parent : state.BlockNode)
    (block : types.Block) (authoritys : gmap string string) (position : Z)
    : outcome * St :=
  run (ValidateBlock_body parent block authoritys position) (mkSt b []).

End Validation.

(** ** What a run has observed *)

(** The fee contribution, the gas and the status flag that a step brought. *)
Definition fee_of (ev : Event) : Z :=
  match ev with EvValidateTx _ _ gasStatus _ => BTMValue gasStatus | _ => 0 end.

Definition gas_of (ev : Event) : Z :=
  match ev with EvValidateTx _ _ gasStatus _ => u64 (GasUsed gasStatus) | _ => 0 end.

Definition flag_of (ev : Event) : list bc.TxVerifyResult :=
  match ev with
  | EvValidateTx _ _ _ err => [bc.Build_TxVerifyResult (not_nil err)]
  | _ => []
  end.

Definition fees (evs : list Event) : Z := fold_right (fun ev acc => fee_of ev + acc) 0 evs.
Definition gas (evs : list Event) : Z := fold_right (fun ev acc => gas_of ev + acc) 0 evs.
Definition flags (evs : list Event) : list bc.TxVerifyResult := flat_map flag_of evs.

Definition is_ValidateTx (ev : Event) : bool :=
  match ev with EvValidateTx _ _ _ _ => true | _ => false end.

(** The steps of the stages after the transactions. *)
Definition is_later_stage (ev : Event) : bool :=
  match ev with
  | EvCheckCoinbaseAmount _ | EvTxMerkleRoot _ | EvTxStatusMerkleRoot _ => true
  | _ => false
  end.

(** [passed i txs evs]: [evs] are the validation steps of the transactions
    [txs], numbered from [i] on, and each of them was gas-valid. *)
Inductive passed : nat -> list bc.Tx -> list Event -> Prop :=
| passed_nil i : passed i [] []
| passed_cons i tx txs gasStatus err evs :
    GasValid gasStatus = true ->
    passed (S i) txs evs ->
    passed i (tx :: txs) (EvValidateTx i tx gasStatus err :: evs).

(** The status with the flag of one more step. *)
Definition record_flag (ts : bc.TransactionStatus.t) (err : option Error)
    : bc.TransactionStatus.t :=
  bc.TransactionStatus.mk (bc.TransactionStatus.Version ts)
    (bc.TransactionStatus.VerifyStatus ts ++ [bc.Build_TxVerifyResult (not_nil err)]).

(** The state [s], whose status is [ts], after the steps [evs] were made
    and recorded. *)
Definition after_steps (s : St) (ts : bc.TransactionStatus.t) (evs : list Event) : St :=
  mkSt (bc.set_TransactionStatus (blk s)
          (bc.TransactionStatus.mk (bc.TransactionStatus.Version ts)
             (bc.TransactionStatus.VerifyStatus ts ++ flags evs)))
       (calls s ++ evs).

(** The message of line 101. *)
Definition invalid_tx_msg : string := "validate of transaction %d of %d".

Section Stages.
Context `{Collaborators}.

(** The registry entry of the block's control program, decoded. *)
Definition proposer_key (b : bc.Block) (authoritys : gmap string string)
    : list Z * option Error :=
  hex.DecodeString (default "" (authoritys !! bc.GetControlProgram (bc.GetProof b))).

(** The header is accepted, the key decodes to [tmp] and the signature
    verifies under it: the run goes on to the transactions. *)
Definition ProposerAuthenticated (b : bc.Block) (parent : state.BlockNode)
    (block : types.Block) (authoritys : gmap string string) (tmp : list Z) : Prop :=
  ValidateBlockHeader b parent = None /\
  proposer_key b authoritys = (tmp, None) /\
  Verify (copy_xpub tmp) (types.MarshalText block) (bc.GetSign (bc.GetProof b)) = true.

(** The state in which line 98 finds the run. *)
Definition loop_start (b : bc.Block) (block : types.Block) (tmp : list Z) : St :=
  mkSt (bc.set_TransactionStatus b bc.NewTransactionStatus)
       [EvVerify (copy_xpub tmp) (types.MarshalText block)
                 (bc.GetSign (bc.GetProof b)) true].

(** The state of a run that authenticated the proposer and then made and
    recorded the validation steps [evs]. *)
Definition validated_state (b : bc.Block) (block : types.Block) (tmp : list Z)
    (evs : list Event) : St :=
  mkSt (bc.set_TransactionStatus b (bc.TransactionStatus.mk 1 (flags evs)))
       (EvVerify (copy_xpub tmp) (types.MarshalText block)
                 (bc.GetSign (bc.GetProof b)) true :: evs).

(** The loop over the first [k] transactions of the block. *)
Definition loop_prefix (b : bc.Block) (block : types.Block) (tmp : list Z) (k : nat)
    : step (Z * Z) * St :=
  txLoop (firstn k (bc.Transactions b)) 0 0 (u64 (BlockSubsidy (bc.Height b)))
         (loop_start b block tmp).

End Stages.

(** ** A small chain

    Concrete collaborators and blocks, on which the statements below are
    exercised.  The identifier of a transaction tells the validator what
    to answer: its first word is the fee, its second the gas, the
    transaction is gas-valid unless its third word is negative, and its
    execution fails when its fourth word is not zero.  The merkle root of
    a list is its length, and a signature verifies when it starts with 7
    under a key that starts with 171. *)
Module Demo.

Definition h (n : Z) : Hash.t := Hash.mk n 0 0 0.

Definition collaborators : Collaborators := {|
  MaxTimeOffsetSeconds := 3600;
  MaxBlockGas := 10000000;
  BlockSubsidy := fun _ => 500;
  Now_Unix := 1000000;
  Verify := fun xpub _ sign =>
    match xpub, sign with
    | 171 :: _, 7 :: _ => true
    | _, _ => false
    end;
  ValidateTx := fun tx _ =>
    (Build_GasState (Hash.V0 (bc.ID tx)) (Hash.V1 (bc.ID tx)) (0 <=? Hash.V2 (bc.ID tx)),
     if Hash.V3 (bc.ID tx) =? 0 then None else Some (errors_New "execution failed"));
  Output := fun _ id =>
    inr (bc.Build_Output (bc.Build_ValueSource (bc.Build_AssetAmount (Hash.V0 id))));
  TxMerkleRoot := fun txs => (h (Z.of_nat (length txs)), None);
  TxStatusMerkleRoot := fun status => (h (Z.of_nat (length status)), None);
  Wrapf_nil := None
|}.

Definition parent : state.BlockNode :=
  state.Build_BlockNode 1 100 (h 9) 77 900000.

Definition registry : gmap string string := {[ "cp" := "ab" ]}.

Definition canonical : types.Block := types.Build_Block [1; 2; 3].

(** A transaction with the fee, the gas, the validity and the failure
    written in its identifier, paying [amount] to its first result. *)
Definition tx_with (fee gasUsed valid failed amount : Z) : bc.Tx :=
  bc.Build_Tx (Hash.mk fee gasUsed valid failed) [h amount].

(** A block on top of [parent] by the control program [cp], whose two
    roots are [root]. *)
Definition block_with (cp : string) (root : Z) (txs : list bc.Tx) : bc.Block :=
  bc.mkBlock 1 101 (h 9) 950000 (h root) (h root) 77 None
    (Some (bc.Build_Proof [7] cp)) txs.

Definition coinbase : bc.Tx := tx_with 0 0 0 0 500.
Definition costly : bc.Tx := tx_with 0 10000001 0 0 0.
Definition invalid : bc.Tx := tx_with 0 0 (-1) 1 0.

Definition good_block : bc.Block := block_with "cp" 1 [coinbase].
Definition unregistered_block : bc.Block := block_with "nobody" 1 [coinbase].
Definition costly_block : bc.Block := block_with "cp" 2 [coinbase; costly].
Definition invalid_block : bc.Block := block_with "cp" 2 [coinbase; invalid].
Definition underpaid_block : bc.Block := block_with "cp" 1 [tx_with 0 0 0 0 499].
Definition wrong_root_block : bc.Block := block_with "cp" 5 [coinbase].

(** A header that fails all four linkage checks at once. *)
Definition unlinked_block : bc.Block :=
  bc.mkBlock 0 7 (h 8) 950000 (h 1) (h 1) 76 None
    (Some (bc.Build_Proof [7] "cp")) [coinbase].

End Demo.

(** ** The run in closed form *)

(** The gas that a step reported, before its conversion to [uint64]. *)
Definition reported_gas (ev : Event) : Z :=
  match ev with EvValidateTx _ _ gasStatus _ => GasUsed gasStatus | _ => 0 end.

Definition total_reported_gas (evs : list Event) : Z :=
  fold_right (fun ev acc => reported_gas ev + acc) 0 evs.

(** Whether a step found its transaction gas-valid. *)
Definition gas_valid (ev : Event) : bool :=
  match ev with EvValidateTx _ _ gasStatus _ => GasValid gasStatus | _ => true end.

Section ClosedForm.
Context `{Collaborators}.

(** The validation steps of the transactions [txs], numbered from [i] on,
    for the block [b] with the flags [fl] recorded so far: each
    transaction is validated on the block as the transactions before it
    left it.  This is what the loop does if nothing stops it. *)
Fixpoint validation_steps (b : bc.Block) (txs : list bc.Tx) (i : nat)
    (fl : list bc.TxVerifyResult) : list Event :=
  match txs with
  | [] => []
  | tx :: rest =>
      let '(gasStatus, err) :=
        ValidateTx tx (bc.set_TransactionStatus b (bc.TransactionStatus.mk 1 fl)) in
      EvValidateTx i tx gasStatus err
        :: validation_steps b rest (S i) (fl ++ [bc.Build_TxVerifyResult (not_nil err)])
  end.

(** Whether the running total of the gas, from [g] on and in [uint64]
    arithmetic, stays within the ceiling after every step. *)
Fixpoint within_ceiling (g : Z) (evs : list Event) : bool :=
  match evs with
  | [] => true
  | ev :: rest =>
      let g' := add64 g (gas_of ev) in
      negb (MaxBlockGas <? g') && within_ceiling g' rest
  end.

(** The steps of a run that nothing stops: the signature check, the
    validation of every transaction, the coinbase check and the two merkle
    roots. *)
Definition all_steps (b : bc.Block) (block : types.Block)
    (authoritys : gmap string string) : list Event :=
  let xpub := copy_xpub (fst (proposer_key b authoritys)) in
  let msg := types.MarshalText block in
  let sign := bc.GetSign (bc.GetProof b) in
  let evs := validation_steps b (bc.Transactions b) 0 [] in
  EvVerify xpub msg sign (Verify xpub msg sign)
    :: evs
    ++ [EvCheckCoinbaseAmount (u64 (BlockSubsidy (bc.Height b) + fees evs));
        EvTxMerkleRoot (bc.Transactions b);
        EvTxStatusMerkleRoot (flags evs)].

(** Every check of the pipeline passes. *)
Definition all_checks_pass (b : bc.Block) (parent : state.BlockNode)
    (block : types.Block) (authoritys : gmap string string) : Prop :=
  let evs := validation_steps b (bc.Transactions b) 0 [] in
  (exists tmp, ProposerAuthenticated b parent block authoritys tmp) /\
  forallb gas_valid evs && within_ceiling 0 evs = true /\
  checkCoinbaseAmount b (u64 (BlockSubsidy (bc.Height b) + fees evs)) = Returned None /\
  TxMerkleRoot (bc.Transactions b) = (bc.TransactionsRoot b, None) /\
  TxStatusMerkleRoot (flags evs) = (bc.TransactionStatusHash b, None).

(** The loop meets a transaction that is not gas-valid and comes with no
    error, every step before it having passed. *)
Definition invalid_without_error (b : bc.Block) : Prop :=
  let evs := validation_steps b (bc.Transactions b) 0 [] in
  exists k tx gasStatus,
    evs !! k = Some (EvValidateTx k tx gasStatus None) /\
    GasValid gasStatus = false /\
    forallb gas_valid (take k evs) && within_ceiling 0 (take k evs) = true.

End ClosedForm.

(** ** More of the small chain *)
Module Demo2.

(** The collaborators of [Demo], an hour of the clock later. *)
Definition an_hour_later : Collaborators := {|
  MaxTimeOffsetSeconds := 3600;
  MaxBlockGas := 10000000;
  BlockSubsidy := BlockSubsidy (Collaborators := Demo.collaborators);
  Now_Unix := 1003600;
  Verify := Verify (Collaborators := Demo.collaborators);
  ValidateTx := ValidateTx (Collaborators := Demo.collaborators);
  Output := Output (Collaborators := Demo.collaborators);
  TxMerkleRoot := TxMerkleRoot (Collaborators := Demo.collaborators);
  TxStatusMerkleRoot := TxStatusMerkleRoot (Collaborators := Demo.collaborators);
  Wrapf_nil := None
|}.

(** A key with an odd number of digits, and the key of [Demo.registry]
    written with one more byte. *)
Definition malformed_registry : gmap string string := {[ "cp" := "abc" ]}.
Definition padded_registry : gmap string string := {[ "cp" := "ab00" ]}.

(** A first transaction without any result. *)
Definition no_result_block : bc.Block :=
  Demo.block_with "cp" 1 [bc.Build_Tx (Hash.mk 0 0 0 0) []].

(** A transaction whose execution fails between two that succeed, each
    paying a fee of 5 and using 40 of gas. *)
Definition mixed_block : bc.Block :=
  Demo.block_with "cp" 3
    [Demo.tx_with 5 40 0 0 515; Demo.tx_with 5 40 0 1 0; Demo.tx_with 5 40 0 0 0].

(** [Demo.good_block] as a caller may hand it over, with a stale status. *)
Definition stale_status : bc.TransactionStatus.t :=
  bc.TransactionStatus.mk 7 [bc.Build_TxVerifyResult true; bc.Build_TxVerifyResult true].

End Demo2.

(** ** Error kinds, and three more blocks *)

(** [errors.Root]: the error under every layer of context. *)
Fixpoint Root (e : Error) : Error :=
  match e with
  | Wrapped e' _ _ => Root e'
  | WithDetail e' _ _ => Root e'
  | _ => e
  end.

(** The run [r] ends at the coinbase check, with the error [e]: the check
    is the last step of the run. *)
Definition stopped_by_coinbase_check (r : outcome * St) (e : Error) : Prop :=
  fst r = Returned (Some e) /\
  exists c, last (calls (snd r)) = Some (EvCheckCoinbaseAmount c).

Section Kinds.
Context `{Collaborators}.

(** The run returns an error whose root is [sentinel]. *)
Definition fails_with_kind (b : bc.Block) (parent : state.BlockNode)
    (block : types.Block) (authoritys : gmap string string) (position : Z)
    (sentinel : Error) : Prop :=
  exists e,
    fst (ValidateBlock b parent block authoritys position) = Returned (Some e) /\
    Root e = sentinel.

(** The first result of the first transaction is an output whose amount is
    not the subsidy plus the fees of the block's transactions. *)
Definition coinbase_amount_differs (b : bc.Block) : Prop :=
  exists tx rest id ids output,
    bc.Transactions b = tx :: rest /\
    bc.ResultIds tx = id :: ids /\
    Output tx id = inr output /\
    bc.Amount (bc.Value (bc.Source output)) <>
      u64 (BlockSubsidy (bc.Height b)
           + fees (validation_steps b (bc.Transactions b) 0 [])).

(** The sentence that [ValidateBlock] fails with the wrong-coinbase kind in
    exactly two sub-cases, read on the whole of [ValidateBlock]. *)
Definition wrong_coinbase_in_exactly_two_cases (b : bc.Block)
    (parent : state.BlockNode) (block : types.Block)
    (authoritys : gmap string string) (position : Z) : Prop :=
  fails_with_kind b parent block authoritys position ErrWrongCoinbaseTransaction <->
  bc.Transactions b = [] \/ coinbase_amount_differs b.

End Kinds.

Module Demo3.

(** The collaborators of [Demo], with a validator whose error is the
    wrong-coinbase sentinel. *)
Definition strict : Collaborators := {|
  MaxTimeOffsetSeconds := 3600;
  MaxBlockGas := 10000000;
  BlockSubsidy := BlockSubsidy (Collaborators := Demo.collaborators);
  Now_Unix := 1000000;
  Verify := Verify (Collaborators := Demo.collaborators);
  ValidateTx := fun tx _ =>
    (Build_GasState (Hash.V0 (bc.ID tx)) (Hash.V1 (bc.ID tx)) (0 <=? Hash.V2 (bc.ID tx)),
     if Hash.V3 (bc.ID tx) =? 0 then None else Some ErrWrongCoinbaseTransaction);
  Output := Output (Collaborators := Demo.collaborators);
  TxMerkleRoot := TxMerkleRoot (Collaborators := Demo.collaborators);
  TxStatusMerkleRoot := TxStatusMerkleRoot (Collaborators := Demo.collaborators);
  Wrapf_nil := None
|}.

(** A coinbase that pays one unit too much, followed by a transaction
    that is not gas-valid and comes without any error, under roots that
    match nothing. *)
Definition silent : bc.Tx := Demo.tx_with 0 0 (-1) 0 0.
Definition silent_block : bc.Block :=
  Demo.block_with "cp" 9 [Demo.tx_with 0 0 0 0 501; silent].

(** A coinbase that pays the subsidy alone, in a block whose one
    transaction reports a fee of 5. *)
Definition unpaid_fee_block : bc.Block :=
  Demo.block_with "cp" 1 [Demo.tx_with 5 40 0 0 500].

(** [Demo.good_block] with a timestamp between the deadline of
    [Demo.collaborators] and that of [Demo2.an_hour_later]. *)
Definition late_block : bc.Block :=
  bc.mkBlock 1 101 (Demo.h 9) 1005000 (Demo.h 1) (Demo.h 1) 77 None
    (Some (bc.Build_Proof [7] "cp")) [Demo.coinbase].

End Demo3.

(** ** The monad and one turn of the loop *)

Lemma Hash_eqb_eq x y : Hash.eqb x y = true <-> x = y.
Proof.
  destruct x, y; unfold Hash.eqb; cbn.
  rewrite !andb_true_iff, !Z.eqb_eq. split.
  - intros [[[-> ->] ->] ->]. reflexivity.
  - intros [= -> -> -> ->]. auto.
Qed.

Lemma Hash_eqb_refl x : Hash.eqb x x = true.
Proof. apply Hash_eqb_eq. reflexivity. Qed.

Lemma Hash_eqb_neq x y : Hash.eqb x y = false <-> x <> y.
Proof.
  rewrite <- Hash_eqb_eq. destruct (Hash.eqb x y); split; congruence.
Qed.

Lemma run_bind_Done {A} (m : M A) (k : A -> M unit) s o s' :
  m s = (Done o, s') -> run (x <- m ;; k x) s = (o, s').
Proof. intros E. unfold run, bind. rewrite E. reflexivity. Qed.

Lemma run_bind_Next {A} (m : M A) (k : A -> M unit) s a s' :
  m s = (Next a, s') -> run (x <- m ;; k x) s = run (k a) s'.
Proof. intros E. unfold run, bind. rewrite E. reflexivity. Qed.

Lemma set_TransactionStatus_same b ts :
  bc.TransactionStatus b = Some ts -> bc.set_TransactionStatus b ts = b.
Proof. destruct b; cbn. intros ->. reflexivity. Qed.

Lemma set_TransactionStatus_twice b ts ts' :
  bc.set_TransactionStatus (bc.set_TransactionStatus b ts) ts' =
  bc.set_TransactionStatus b ts'.
Proof. reflexivity. Qed.

Lemma SetStatus_at_end ts i gasOnly :
  length (bc.TransactionStatus.VerifyStatus ts) = i ->
  bc.TransactionStatus.SetStatus ts i gasOnly =
    inr (bc.TransactionStatus.mk (bc.TransactionStatus.Version ts)
           (bc.TransactionStatus.VerifyStatus ts ++ [bc.Build_TxVerifyResult gasOnly])).
Proof.
  intros <-. unfold bc.TransactionStatus.SetStatus.
  rewrite Nat.ltb_irrefl, Nat.eqb_refl. reflexivity.
Qed.

Section Loop.
Context `{Collaborators}.

Lemma ValidateBlock_enters b parent block authoritys position tmp :
  ProposerAuthenticated b parent block authoritys tmp ->
  ValidateBlock b parent block authoritys position =
    run (sums <- txLoop (bc.Transactions b) 0 0 (u64 (BlockSubsidy (bc.Height b))) ;;
         ValidateBlock_tail (snd sums))
        (loop_start b block tmp).
Proof.
  intros (Hh & Hk & Hv).
  unfold ValidateBlock, ValidateBlock_body, run at 1.
  unfold bind at 1. cbn [getBlock blk fst snd].
  unfold bind at 1. rewrite Hh. cbn [check ret].
  unfold proposer_key in Hk. rewrite Hk.
  unfold bind at 1. cbn [check ret].
  unfold bind at 1. cbn [log blk calls app].
  rewrite Hv. cbn [negb].
  unfold bind at 1. cbn [putBlock blk calls].
  reflexivity.
Qed.

(** One turn of the loop when the status holds exactly the flags of the
    transactions before [i]. *)
Lemma txLoop_step tx rest i g c s ts gasStatus err :
  bc.TransactionStatus (blk s) = Some ts ->
  length (bc.TransactionStatus.VerifyStatus ts) = i ->
  ValidateTx tx (blk s) = (gasStatus, err) ->
  txLoop (tx :: rest) i g c s =
    let ev := EvValidateTx i tx gasStatus err in
    if negb (GasValid gasStatus) then
      (Done (Returned (Wrapf err invalid_tx_msg
                         [ArgInt (Z.of_nat i);
                          ArgInt (Z.of_nat (length (bc.Transactions (blk s))))])),
       mkSt (blk s) (calls s ++ [ev]))
    else
      let s' := mkSt (bc.set_TransactionStatus (blk s) (record_flag ts err))
                     (calls s ++ [ev]) in
      if MaxBlockGas <? add64 g (u64 (GasUsed gasStatus)) then
        (Done (Returned (Some errOverBlockLimit)), s')
      else
        txLoop rest (S i) (add64 g (u64 (GasUsed gasStatus)))
               (add64 c (BTMValue gasStatus)) s'.
Proof.
  intros Hts Hlen Hv. cbn [txLoop].
  unfold bind at 1. cbn [getBlock]. rewrite Hv.
  unfold bind at 1. cbn [log].
  destruct (GasValid gasStatus); cbn [negb]; [| reflexivity].
  unfold bind at 1. unfold setStatus. unfold bind at 1. cbn [getBlock blk calls].
  rewrite Hts, (SetStatus_at_end _ _ _ Hlen). cbn [putBlock blk calls].
  destruct (MaxBlockGas <? _); reflexivity.
Qed.

Lemma txLoop_app l1 l2 i g c s :
  txLoop (l1 ++ l2) i g c s =
    match txLoop l1 i g c s with
    | (Next (g', c'), s') => txLoop l2 (i + length l1) g' c' s'
    | (Done o, s') => (Done o, s')
    end.
Proof.
  revert i g c s. induction l1 as [| tx l1 IH]; intros i g c s.
  - cbn. rewrite Nat.add_0_r. reflexivity.
  - cbn [app txLoop length]. unfold bind, getBlock.
    destruct (ValidateTx tx (blk s)) as [gasStatus err].
    unfold log. cbn [blk calls].
    destruct (GasValid gasStatus); cbn [negb]; [| reflexivity].
    destruct (setStatus i (not_nil err) _) as [[[] | o] s1]; [| reflexivity].
    destruct (MaxBlockGas <? _); [reflexivity |].
    rewrite IH. replace (S i + length l1)%nat with (i + S (length l1))%nat by lia.
    reflexivity.
Qed.

Lemma after_steps_nil s ts :
  bc.TransactionStatus (blk s) = Some ts -> after_steps s ts [] = s.
Proof.
  intros Hts. unfold after_steps. cbn [flags flat_map].
  rewrite !app_nil_r. destruct ts as [v l]. cbn.
  rewrite (set_TransactionStatus_same _ _ Hts). destruct s; reflexivity.
Qed.

Lemma after_steps_cons s ts i tx gasStatus err evs :
  after_steps (mkSt (bc.set_TransactionStatus (blk s) (record_flag ts err))
                    (calls s ++ [EvValidateTx i tx gasStatus err]))
              (record_flag ts err) evs =
  after_steps s ts (EvValidateTx i tx gasStatus err :: evs).
Proof.
  unfold after_steps, record_flag. cbn.
  rewrite <- !app_assoc. reflexivity.
Qed.

Lemma u64_idem x : u64 (u64 x) = u64 x.
Proof. unfold u64, two64. apply Z.mod_mod. lia. Qed.

Lemma add64_u64 a b : u64 (add64 a b) = add64 a b.
Proof. unfold add64, u64, two64. apply Z.mod_mod. lia. Qed.

Lemma u64_add64_l a b z : u64 (add64 a b + z) = u64 (a + (b + z)).
Proof.
  unfold add64, u64, two64. rewrite Zplus_mod_idemp_l. f_equal. lia.
Qed.

(** A loop that runs to its end made one gas-valid step per transaction,
    recorded one flag per step and summed the gas and the fees. *)
Lemma txLoop_Next txs : forall i g c s ts g' c' s',
  bc.TransactionStatus (blk s) = Some ts ->
  length (bc.TransactionStatus.VerifyStatus ts) = i ->
  txLoop txs i g c s = (Next (g', c'), s') ->
  exists evs,
    passed i txs evs /\
    s' = after_steps s ts evs /\
    (u64 g = g -> g' = u64 (g + gas evs)) /\
    (u64 c = c -> c' = u64 (c + fees evs)) /\
    (g <= MaxBlockGas \/ txs <> [] -> g' <= MaxBlockGas).
Proof.
  induction txs as [| tx rest IH]; intros i g c s ts g' c' s' Hts Hlen Hrun.
  - cbn in Hrun. injection Hrun as <- <- <-. exists [].
    split; [constructor |]. split; [symmetry; apply after_steps_nil, Hts |].
    cbn [gas fees fold_right]. rewrite !Z.add_0_r.
    repeat split; auto. intros [Hg | Hne]; [exact Hg | congruence].
  - destruct (ValidateTx tx (blk s)) as [gasStatus err] eqn:Hv.
    rewrite (txLoop_step _ _ _ _ _ _ _ _ _ Hts Hlen Hv) in Hrun. cbv zeta in Hrun.
    destruct (GasValid gasStatus) eqn:Hvalid; cbn [negb] in Hrun; [| discriminate].
    destruct (MaxBlockGas <? _) eqn:Hover; [discriminate |].
    apply Z.ltb_ge in Hover.
    eapply IH in Hrun as (evs & Hp & Hs & Hg & Hc & Hmax).
    + exists (EvValidateTx i tx gasStatus err :: evs).
      split; [constructor; assumption |].
      split; [rewrite Hs; apply after_steps_cons |].
      cbn [gas fees fold_right gas_of fee_of].
      split; [| split].
      * intros _. rewrite (Hg (add64_u64 _ _)). apply u64_add64_l.
      * intros _. rewrite (Hc (add64_u64 _ _)). apply u64_add64_l.
      * intros _. apply Hmax. left. exact Hover.
    + reflexivity.
    + cbn. rewrite length_app. cbn. lia.
Qed.

(** The loop over a list goes through any prefix that runs to its end. *)
Lemma txLoop_from_prefix txs k tx i g c s gk ck sk :
  txs !! k = Some tx ->
  txLoop (take k txs) i g c s = (Next (gk, ck), sk) ->
  txLoop txs i g c s = txLoop (tx :: drop (S k) txs) (i + k) gk ck sk.
Proof.
  intros Hk Hrun.
  rewrite <- (take_drop_middle txs k tx Hk) at 1.
  rewrite txLoop_app, Hrun, length_take.
  apply lookup_lt_Some in Hk.
  replace (k `min` length txs)%nat with k by lia. reflexivity.
Qed.

(** A loop that leaves the function does so at one transaction, after the
    loop over the transactions before it ran to its end: either that
    transaction is not gas-valid, or its gas takes the running total over
    the ceiling. *)
Lemma txLoop_Done txs : forall i g c s ts o s',
  bc.TransactionStatus (blk s) = Some ts ->
  length (bc.TransactionStatus.VerifyStatus ts) = i ->
  txLoop txs i g c s = (Done o, s') ->
  exists k tx gk ck sk gasStatus err,
    txs !! k = Some tx /\
    txLoop (take k txs) i g c s = (Next (gk, ck), sk) /\
    ValidateTx tx (blk sk) = (gasStatus, err) /\
    ((GasValid gasStatus = false /\
      o = Returned (Wrapf err invalid_tx_msg
                      [ArgInt (Z.of_nat (i + k));
                       ArgInt (Z.of_nat (length (bc.Transactions (blk sk))))]) /\
      s' = mkSt (blk sk) (calls sk ++ [EvValidateTx (i + k) tx gasStatus err]))
     \/
     (GasValid gasStatus = true /\
      MaxBlockGas < add64 gk (u64 (GasUsed gasStatus)) /\
      o = Returned (Some errOverBlockLimit) /\
      exists tsk,
        bc.TransactionStatus (blk sk) = Some tsk /\
        s' = mkSt (bc.set_TransactionStatus (blk sk) (record_flag tsk err))
                  (calls sk ++ [EvValidateTx (i + k) tx gasStatus err]))).
Proof.
  induction txs as [| tx rest IH]; intros i g c s ts o s' Hts Hlen Hrun.
  - discriminate.
  - destruct (ValidateTx tx (blk s)) as [gasStatus err] eqn:Hv.
    pose proof (txLoop_step tx rest i g c s ts gasStatus err Hts Hlen Hv) as Hstep.
    rewrite Hstep in Hrun. cbv zeta in Hrun.
    destruct (GasValid gasStatus) eqn:Hvalid; cbn [negb] in Hrun.
    + destruct (MaxBlockGas <? _) eqn:Hover.
      * injection Hrun as <- <-. apply Z.ltb_lt in Hover.
        exists 0%nat, tx, g, c, s, gasStatus, err. rewrite Nat.add_0_r.
        repeat split; try assumption. right. repeat split; try assumption.
        exists ts. split; [assumption | reflexivity].
      * eapply IH in Hrun
          as (k & tx' & gk & ck & sk & gs' & err' & Hk & Hpre & Hv' & Hcase);
          [| reflexivity | cbn; rewrite length_app; cbn; lia].
        exists (S k), tx', gk, ck, sk, gs', err'.
        replace (i + S k)%nat with (S i + k)%nat by lia.
        repeat split; try assumption.
        cbn [take]. rewrite (txLoop_step _ _ _ _ _ _ _ _ _ Hts Hlen Hv).
        cbv zeta. rewrite Hvalid, Hover. exact Hpre.
    + injection Hrun as <- <-.
      exists 0%nat, tx, g, c, s, gasStatus, err. rewrite Nat.add_0_r.
      repeat split; try assumption. left. repeat split; assumption.
Qed.

End Loop.

(** ** The header *)

(** Inside the range of [uint64], the conversion and the sum are exact. *)
Lemma u64_no_wrap x : 0 <= x < two64 -> u64 x = x.
Proof. intros Hx. apply Z.mod_small, Hx. Qed.

Lemma add64_no_wrap a b : 0 <= a + b < two64 -> add64 a b = a + b.
Proof. intros Hab. apply Z.mod_small, Hab. Qed.

Section Header.
Context `{Collaborators}.

(** The latest timestamp the clock allows: [uint64(now) + MaxTimeOffsetSeconds]. *)
Lemma deadline_no_wrap :
  0 <= Now_Unix -> 0 <= MaxTimeOffsetSeconds ->
  Now_Unix + MaxTimeOffsetSeconds < two64 ->
  add64 (u64 Now_Unix) MaxTimeOffsetSeconds = Now_Unix + MaxTimeOffsetSeconds.
Proof.
  intros Hn Hm Hlt. unfold add64, u64.
  rewrite (Z.mod_small Now_Unix) by lia. apply Z.mod_small. lia.
Qed.

Lemma checkBlockTime_cases b parent :
  checkBlockTime b parent =
    if (bc.Timestamp b <=? add64 (u64 Now_Unix) MaxTimeOffsetSeconds)
       && (state.CalcPastMedianTime parent <? bc.Timestamp b)
    then None else Some errBadTimestamp.
Proof.
  unfold checkBlockTime.
  destruct (Z.ltb_spec (add64 (u64 Now_Unix) MaxTimeOffsetSeconds) (bc.Timestamp b));
    destruct (Z.leb_spec (bc.Timestamp b) (state.CalcPastMedianTime parent));
    destruct (Z.leb_spec (bc.Timestamp b) (add64 (u64 Now_Unix) MaxTimeOffsetSeconds));
    destruct (Z.ltb_spec (state.CalcPastMedianTime parent) (bc.Timestamp b));
    cbn; try reflexivity; lia.
Qed.

(** When the four linkage checks pass, the header is judged by its time. *)
Lemma ValidateBlockHeader_linked b parent :
  state.Version parent <= bc.Version b ->
  bc.Height b = add64 (state.Height parent) 1 ->
  bc.Bits b = state.CalcNextBits parent ->
  bc.PreviousBlockId b = state.Hash parent ->
  ValidateBlockHeader b parent = checkBlockTime b parent.
Proof.
  intros Hv Hh Hb Hp. unfold ValidateBlockHeader.
  destruct (Z.ltb_spec (bc.Version b) (state.Version parent)); [lia |].
  rewrite <- Hh, <- Hb, Hp, !Z.eqb_refl, Hash_eqb_refl. cbn [negb].
  destruct (checkBlockTime b parent); reflexivity.
Qed.

Lemma header_kinds_distinct :
  NoDup [errVersionRegression; errMisorderedBlockHeight; errBadBits; errMismatchedBlock].
Proof.
  repeat (apply NoDup_cons; split;
          [rewrite ?elem_of_cons, ?elem_of_nil; intuition discriminate |]).
  apply NoDup_nil_2.
Qed.

(** C5: [ValidateBlockHeader] checks the version, then the height, then the
    difficulty bits, then the previous block identifier; each check has an
    error of its own, which carries the values that differ, and the error
    returned is that of the first check that fails, whatever the later
    ones would say.  The height is compared with [parent.Height+1] in
    [uint64] arithmetic. *)
Theorem C5_header_checks_in_order (b : bc.Block) (parent : state.BlockNode) :
  (bc.Version b < state.Version parent ->
   ValidateBlockHeader b parent =
     Some (WithDetailf errVersionRegression
             "previous block verson %d, current block version %d"
             [ArgInt (state.Version parent); ArgInt (bc.Version b)])) /\
  (state.Version parent <= bc.Version b ->
   bc.Height b <> add64 (state.Height parent) 1 ->
   ValidateBlockHeader b parent =
     Some (WithDetailf errMisorderedBlockHeight
             "previous block height %d, current block height %d"
             [ArgInt (state.Height parent); ArgInt (bc.Height b)])) /\
  (state.Version parent <= bc.Version b ->
   bc.Height b = add64 (state.Height parent) 1 ->
   bc.Bits b <> state.CalcNextBits parent ->
   ValidateBlockHeader b parent = Some errBadBits) /\
  (state.Version parent <= bc.Version b ->
   bc.Height b = add64 (state.Height parent) 1 ->
   bc.Bits b = state.CalcNextBits parent ->
   bc.PreviousBlockId b <> state.Hash parent ->
   ValidateBlockHeader b parent =
     Some (WithDetailf errMismatchedBlock
             "previous block ID %x, current block wants %x"
             [ArgHash (state.Hash parent); ArgHash (bc.PreviousBlockId b)])) /\
  NoDup [errVersionRegression; errMisorderedBlockHeight; errBadBits; errMismatchedBlock].
Proof.
  unfold ValidateBlockHeader.
  destruct (Z.ltb_spec (bc.Version b) (state.Version parent)) as [Hv | Hv];
    destruct (Z.eqb_spec (bc.Height b) (add64 (state.Height parent) 1)) as [Hh | Hh];
    destruct (Z.eqb_spec (bc.Bits b) (state.CalcNextBits parent)) as [Hb | Hb];
    (destruct (Hash.eqb (state.Hash parent) (bc.PreviousBlockId b)) eqn:Hp;
     [apply Hash_eqb_eq in Hp | apply Hash_eqb_neq in Hp]);
    cbn [negb];
    (split; [| split; [| split; [| split]]]);
    try (intros; first [reflexivity | lia | congruence]).
  all: apply header_kinds_distinct.
Qed.

(** C6: once the linkage checks have passed, [ValidateBlockHeader] accepts
    the block exactly when its timestamp is at most the clock plus
    [MaxTimeOffsetSeconds] (in [uint64] arithmetic) and greater than the
    parent's past median time; a timestamp outside either bound gets the
    one error [errBadTimestamp]. *)
Theorem C6_timestamp_window (b : bc.Block) (parent : state.BlockNode) :
  state.Version parent <= bc.Version b ->
  bc.Height b = add64 (state.Height parent) 1 ->
  bc.Bits b = state.CalcNextBits parent ->
  bc.PreviousBlockId b = state.Hash parent ->
  (ValidateBlockHeader b parent = None <->
   bc.Timestamp b <= add64 (u64 Now_Unix) MaxTimeOffsetSeconds /\
   state.CalcPastMedianTime parent < bc.Timestamp b) /\
  (add64 (u64 Now_Unix) MaxTimeOffsetSeconds < bc.Timestamp b ->
   ValidateBlockHeader b parent = Some errBadTimestamp) /\
  (bc.Timestamp b <= state.CalcPastMedianTime parent ->
   ValidateBlockHeader b parent = Some errBadTimestamp).
Proof.
  intros Hv Hh Hb Hp.
  rewrite (ValidateBlockHeader_linked b parent Hv Hh Hb Hp), checkBlockTime_cases.
  destruct (Z.leb_spec (bc.Timestamp b) (add64 (u64 Now_Unix) MaxTimeOffsetSeconds));
    destruct (Z.ltb_spec (state.CalcPastMedianTime parent) (bc.Timestamp b));
    cbn [andb]; (split; [split |]); try split;
    first [reflexivity | discriminate | lia | intros; lia | intros [? ?]; lia | idtac].
Qed.

(** C9: the last parameter of [ValidateBlock] is never read: two calls that
    differ only in it return the same error, leave the same transaction
    status on the block and make the same steps. *)
Theorem C9_position_is_ignored (b : bc.Block) (parent : state.BlockNode)
    (block : types.Block) (authoritys : gmap string string) (position position' : Z) :
  let r := ValidateBlock b parent block authoritys position in
  let r' := ValidateBlock b parent block authoritys position' in
  fst r = fst r' /\
  bc.TransactionStatus (blk (snd r)) = bc.TransactionStatus (blk (snd r')) /\
  snd r = snd r'.
Proof.
  intros r r'.
  assert (Hbody : ValidateBlock_body parent block authoritys position =
                  ValidateBlock_body parent block authoritys position')
    by reflexivity.
  assert (Hr : r = r') by (unfold r, r', ValidateBlock; rewrite Hbody; reflexivity).
  rewrite Hr. repeat split.
Qed.

End Header.

(** ** The transactions *)

Lemma passed_length i txs evs : passed i txs evs -> length evs = length txs.
Proof. induction 1; cbn; congruence. Qed.

Lemma passed_flags_length i txs evs : passed i txs evs -> length (flags evs) = length txs.
Proof. unfold flags. induction 1; cbn; congruence. Qed.

Lemma passed_is_ValidateTx i txs evs :
  passed i txs evs -> Forall (fun ev => is_ValidateTx ev = true) evs.
Proof. induction 1; constructor; [reflexivity | assumption]. Qed.

Lemma passed_no_later_stage i txs evs :
  passed i txs evs -> Forall (fun ev => is_later_stage ev = false) evs.
Proof. induction 1; constructor; [reflexivity | assumption]. Qed.

Lemma flags_app evs evs' : flags (evs ++ evs') = flags evs ++ flags evs'.
Proof. unfold flags. apply flat_map_app. Qed.

Section Transactions.
Context `{Collaborators}.

(** What a prefix of the loop that ran to its end has done. *)
Lemma loop_prefix_Next b block tmp k g c st :
  loop_prefix b block tmp k = (Next (g, c), st) ->
  exists evs,
    passed 0 (take k (bc.Transactions b)) evs /\
    st = validated_state b block tmp evs /\
    g = u64 (gas evs) /\
    c = u64 (BlockSubsidy (bc.Height b) + fees evs) /\
    (k <> 0%nat -> bc.Transactions b <> [] -> g <= MaxBlockGas).
Proof.
  unfold loop_prefix. intros Hrun.
  eapply txLoop_Next in Hrun as (evs & Hp & Hs & Hg & Hc & Hmax);
    [| reflexivity | reflexivity].
  exists evs. split; [exact Hp |]. split; [exact Hs |].
  split; [apply Hg; reflexivity |].
  split.
  - rewrite (Hc (u64_idem _)). unfold u64, two64. apply Zplus_mod_idemp_l.
  - intros Hk Hne. apply Hmax. right.
    destruct k; [congruence |]. destruct (bc.Transactions b); [congruence |].
    discriminate.
Qed.

(** A prefix of a prefix that ran to its end ran to its end. *)
Lemma loop_prefix_shorter b block tmp j k g c st :
  (j <= k)%nat ->
  loop_prefix b block tmp k = (Next (g, c), st) ->
  exists gj cj sj, loop_prefix b block tmp j = (Next (gj, cj), sj).
Proof.
  unfold loop_prefix. intros Hjk Hrun.
  rewrite <- (take_drop j (take k (bc.Transactions b))) in Hrun.
  rewrite txLoop_app, take_take in Hrun.
  replace (j `min` k)%nat with j in Hrun by lia.
  destruct (txLoop (take j (bc.Transactions b)) _ _ _ _) as [[[gj cj] | o] sj];
    [eauto | discriminate].
Qed.

(** The whole loop, when its prefix of length [i] ran to its end. *)
Lemma loop_at b block tmp i tx g c evs :
  bc.Transactions b !! i = Some tx ->
  passed 0 (take i (bc.Transactions b)) evs ->
  loop_prefix b block tmp i = (Next (g, c), validated_state b block tmp evs) ->
  txLoop (bc.Transactions b) 0 0 (u64 (BlockSubsidy (bc.Height b))) (loop_start b block tmp) =
    txLoop (tx :: drop (S i) (bc.Transactions b)) i g c (validated_state b block tmp evs)
  /\ length (flags evs) = i.
Proof.
  intros Hi Hp Hrun. split.
  - apply (txLoop_from_prefix _ _ _ _ _ _ _ _ _ _ Hi Hrun).
  - rewrite (passed_flags_length _ _ _ Hp), length_take.
    apply lookup_lt_Some in Hi. lia.
Qed.

(** C4, on the code: when the loop reaches the transaction of index [i]
    and the validator reports it as not gas-valid, [ValidateBlock] returns
    at once what [errors.Wrapf] makes of the validator's error, with [i]
    and the number of transactions of the block.  The transaction gets no
    flag, the validation step of index [i] is the last step of the run, and
    neither the coinbase check nor a merkle root is computed.  With an
    error [e] the result is [e] wrapped: the block is rejected.  With no
    error, [errors.Wrapf] turning [nil] into [nil], the result is [nil]:
    the block is accepted. *)
Theorem C4_invalid_transaction_ends_the_run (b : bc.Block) (parent : state.BlockNode)
    (block : types.Block) (authoritys : gmap string string) (position : Z)
    (tmp : list Z) (i : nat) (tx : bc.Tx) (g c : Z) (st : St)
    (gasStatus : GasState) (err : option Error) :
  ProposerAuthenticated b parent block authoritys tmp ->
  loop_prefix b block tmp i = (Next (g, c), st) ->
  bc.Transactions b !! i = Some tx ->
  ValidateTx tx (blk st) = (gasStatus, err) ->
  GasValid gasStatus = false ->
  ValidateBlock b parent block authoritys position =
    (Returned (Wrapf err invalid_tx_msg
                 [ArgInt (Z.of_nat i);
                  ArgInt (Z.of_nat (length (bc.Transactions b)))]),
     mkSt (blk st) (calls st ++ [EvValidateTx i tx gasStatus err]))
  /\ (forall e,
        err = Some e ->
        fst (ValidateBlock b parent block authoritys position) =
          Returned (Some (Wrapped e invalid_tx_msg
                            [ArgInt (Z.of_nat i);
                             ArgInt (Z.of_nat (length (bc.Transactions b)))])))
  /\ (err = None ->
      Wrapf_nil = None ->
      fst (ValidateBlock b parent block authoritys position) = Returned None)
  /\ Forall (fun ev => is_later_stage ev = false)
            (calls (snd (ValidateBlock b parent block authoritys position)))
  /\ exists evs,
       passed 0 (take i (bc.Transactions b)) evs /\
       st = validated_state b block tmp evs /\
       length (flags evs) = i.
Proof.
  intros Hauth Hpre Hi Hv Hinvalid.
  destruct (loop_prefix_Next _ _ _ _ _ _ _ Hpre) as (evs & Hp & -> & _).
  destruct (loop_at _ _ _ _ _ _ _ _ Hi Hp Hpre) as [Hloop Hlen].
  assert (Hrun : ValidateBlock b parent block authoritys position =
            (Returned (Wrapf err invalid_tx_msg
                         [ArgInt (Z.of_nat i);
                          ArgInt (Z.of_nat (length (bc.Transactions b)))]),
             mkSt (blk (validated_state b block tmp evs))
                  (calls (validated_state b block tmp evs)
                   ++ [EvValidateTx i tx gasStatus err]))).
  { rewrite (ValidateBlock_enters _ _ _ _ _ _ Hauth).
    apply run_bind_Done. rewrite Hloop.
    rewrite (txLoop_step _ _ _ _ _ (validated_state b block tmp evs)
               (bc.TransactionStatus.mk 1 (flags evs)) _ _ eq_refl Hlen Hv).
    cbv zeta. rewrite Hinvalid. reflexivity. }
  split; [exact Hrun |]. split; [| split; [| split]].
  - intros e ->. rewrite Hrun. reflexivity.
  - intros -> Hnil. rewrite Hrun. cbn [fst Wrapf]. rewrite Hnil. reflexivity.
  - rewrite Hrun. cbn [snd calls validated_state].
    constructor; [reflexivity |].
    apply Forall_app. split; [apply (passed_no_later_stage _ _ _ Hp) |].
    constructor; [reflexivity | constructor].
  - exists evs. auto.
Qed.

(** C2: when the loop reaches the transaction of index [i], the validator
    reports it as gas-valid, and its gas takes the running total of the
    block over [MaxBlockGas], [ValidateBlock] returns [errOverBlockLimit].
    The running total is the sum of the gas used so far, in [uint64]
    arithmetic; it was within the ceiling after every earlier transaction,
    so [i] is the first index at which it crosses.  The validation step of
    index [i] is the last step of the run: no later transaction is
    validated, and neither the coinbase check nor a merkle root is
    computed. *)
Theorem C2_gas_ceiling_stops_validation (b : bc.Block) (parent : state.BlockNode)
    (block : types.Block) (authoritys : gmap string string) (position : Z)
    (tmp : list Z) (i : nat) (tx : bc.Tx) (g c : Z) (st : St)
    (gasStatus : GasState) (err : option Error) :
  ProposerAuthenticated b parent block authoritys tmp ->
  loop_prefix b block tmp i = (Next (g, c), st) ->
  bc.Transactions b !! i = Some tx ->
  ValidateTx tx (blk st) = (gasStatus, err) ->
  GasValid gasStatus = true ->
  MaxBlockGas < add64 g (u64 (GasUsed gasStatus)) ->
  exists evs,
    passed 0 (take i (bc.Transactions b)) evs /\
    st = validated_state b block tmp evs /\
    g = u64 (gas evs) /\
    (forall j, (0 < j <= i)%nat ->
       exists gj cj sj,
         loop_prefix b block tmp j = (Next (gj, cj), sj) /\ gj <= MaxBlockGas) /\
    ValidateBlock b parent block authoritys position =
      (Returned (Some errOverBlockLimit),
       validated_state b block tmp (evs ++ [EvValidateTx i tx gasStatus err])) /\
    length (evs ++ [EvValidateTx i tx gasStatus err]) = S i /\
    Forall (fun ev => is_later_stage ev = false)
           (calls (snd (ValidateBlock b parent block authoritys position))).
Proof.
  intros Hauth Hpre Hi Hv Hvalid Hover.
  destruct (loop_prefix_Next _ _ _ _ _ _ _ Hpre) as (evs & Hp & -> & Hg & _).
  destruct (loop_at _ _ _ _ _ _ _ _ Hi Hp Hpre) as [Hloop Hlen].
  assert (Hrun : ValidateBlock b parent block authoritys position =
            (Returned (Some errOverBlockLimit),
             validated_state b block tmp (evs ++ [EvValidateTx i tx gasStatus err]))).
  { rewrite (ValidateBlock_enters _ _ _ _ _ _ Hauth).
    apply run_bind_Done. rewrite Hloop.
    rewrite (txLoop_step _ _ _ _ _ (validated_state b block tmp evs)
               (bc.TransactionStatus.mk 1 (flags evs)) _ _ eq_refl Hlen Hv).
    cbv zeta. rewrite Hvalid. apply Z.ltb_lt in Hover. rewrite Hover.
    unfold validated_state, record_flag. cbn. rewrite flags_app. reflexivity. }
  exists evs. split; [exact Hp |]. split; [reflexivity |]. split; [exact Hg |].
  split; [| split; [exact Hrun | split]].
  - intros j [Hj0 Hji].
    destruct (loop_prefix_shorter _ _ _ j _ _ _ _ Hji Hpre) as (gj & cj & sj & Hj).
    exists gj, cj, sj. split; [exact Hj |].
    destruct (loop_prefix_Next _ _ _ _ _ _ _ Hj) as (_ & _ & _ & _ & _ & Hmax).
    apply Hmax; [lia |]. intros Hnil. rewrite Hnil in Hi. discriminate.
  - rewrite length_app, (passed_length _ _ _ Hp), length_take. cbn.
    apply lookup_lt_Some in Hi. lia.
  - rewrite Hrun. cbn. constructor; [reflexivity |].
    apply Forall_app. split; [apply (passed_no_later_stage _ _ _ Hp) |].
    constructor; [reflexivity | constructor].
Qed.

(** Every way in which the loop of an authenticated block can leave the
    function: at one transaction, which is not gas-valid or takes the gas
    over the ceiling; [SetStatus] never fails there, because the status
    always holds one flag per transaction already passed. *)
Lemma loop_exit_cases b block tmp o s' :
  txLoop (bc.Transactions b) 0 0 (u64 (BlockSubsidy (bc.Height b)))
         (loop_start b block tmp) = (Done o, s') ->
  exists k tx evs gasStatus err,
    bc.Transactions b !! k = Some tx /\
    passed 0 (take k (bc.Transactions b)) evs /\
    length (flags evs) = k /\
    ValidateTx tx (blk (validated_state b block tmp evs)) = (gasStatus, err) /\
    ((GasValid gasStatus = false /\
      o = Returned (Wrapf err invalid_tx_msg
                      [ArgInt (Z.of_nat k);
                       ArgInt (Z.of_nat (length (bc.Transactions b)))]) /\
      s' = mkSt (bc.set_TransactionStatus b (bc.TransactionStatus.mk 1 (flags evs)))
                (calls (validated_state b block tmp evs)
                 ++ [EvValidateTx k tx gasStatus err]))
     \/
     (GasValid gasStatus = true /\
      MaxBlockGas < add64 (u64 (gas evs)) (u64 (GasUsed gasStatus)) /\
      o = Returned (Some errOverBlockLimit) /\
      s' = validated_state b block tmp (evs ++ [EvValidateTx k tx gasStatus err]))).
Proof.
  intros Hrun.
  eapply txLoop_Done in Hrun
    as (k & tx & gk & ck & sk & gasStatus & err & Hk & Hpre & Hv & Hcase);
    [| reflexivity | reflexivity].
  fold (loop_prefix b block tmp k) in Hpre.
  destruct (loop_prefix_Next _ _ _ _ _ _ _ Hpre) as (evs & Hp & -> & -> & _).
  destruct (loop_at _ _ _ _ _ _ _ _ Hk Hp Hpre) as [_ Hlen].
  exists k, tx, evs, gasStatus, err.
  repeat (split; [assumption |]).
  destruct Hcase as [(Hinv & -> & ->) | (Hval & Hover & -> & tsk & Htsk & ->)].
  - left. repeat split; assumption.
  - right. repeat split; try assumption.
    cbn in Htsk. injection Htsk as <-.
    unfold validated_state, record_flag. cbn. rewrite flags_app. reflexivity.
Qed.

(** C10: the loop starts on a block whose status was replaced by a fresh,
    empty one, the signature check being the only step made so far.  When
    the run of an authenticated block leaves the function inside the loop,
    at the transaction of index [k], it leaves behind [b] a status that
    holds the flags of the [k] transactions passed before, and also the
    flag of transaction [k] when the gas ceiling is what stopped the run:
    fewer flags than a completed loop records, whatever status the block
    carried before the call.  Nothing puts the former status back. *)
Theorem C10_partial_status_is_left_on_the_block (b : bc.Block)
    (parent : state.BlockNode) (block : types.Block)
    (authoritys : gmap string string) (position : Z) (tmp : list Z)
    (o : outcome) (s' : St) :
  ProposerAuthenticated b parent block authoritys tmp ->
  txLoop (bc.Transactions b) 0 0 (u64 (BlockSubsidy (bc.Height b)))
         (loop_start b block tmp) = (Done o, s') ->
  bc.TransactionStatus (blk (loop_start b block tmp)) = Some bc.NewTransactionStatus /\
  ValidateBlock b parent block authoritys position = (o, s') /\
  exists k tx evs gasStatus err,
    bc.Transactions b !! k = Some tx /\
    passed 0 (take k (bc.Transactions b)) evs /\
    length (flags evs) = k /\
    ValidateTx tx (blk (validated_state b block tmp evs)) = (gasStatus, err) /\
    ((GasValid gasStatus = false /\
      o = Returned (Wrapf err invalid_tx_msg
                      [ArgInt (Z.of_nat k);
                       ArgInt (Z.of_nat (length (bc.Transactions b)))]) /\
      blk s' = bc.set_TransactionStatus b (bc.TransactionStatus.mk 1 (flags evs)))
     \/
     (GasValid gasStatus = true /\
      o = Returned (Some errOverBlockLimit) /\
      blk s' = bc.set_TransactionStatus b
                 (bc.TransactionStatus.mk 1
                    (flags evs ++ [bc.Build_TxVerifyResult (not_nil err)])) /\
      (S k <= length (bc.Transactions b))%nat)).
Proof.
  intros Hauth Hrun. split; [reflexivity |]. split.
  - rewrite (ValidateBlock_enters _ _ _ _ _ _ Hauth).
    apply run_bind_Done. exact Hrun.
  - destruct (loop_exit_cases _ _ _ _ _ Hrun)
      as (k & tx & evs & gasStatus & err & Hk & Hp & Hlen & Hv & Hcase).
    exists k, tx, evs, gasStatus, err.
    repeat (split; [assumption |]).
    destruct Hcase as [(Hinv & -> & ->) | (Hval & Hover & -> & ->)].
    + left. repeat split; try assumption.
    + right. repeat split; try assumption.
      * unfold validated_state. cbn. rewrite flags_app. reflexivity.
      * apply lookup_lt_Some in Hk. lia.
Qed.

End Transactions.

(** ** After the loop *)

Section Commitments.
Context `{Collaborators}.

(** The coinbase check hands its verdict up, or lets the merkle checks run. *)
Lemma tail_run c st :
  run (ValidateBlock_tail c) st =
    let st1 := mkSt (blk st) (calls st ++ [EvCheckCoinbaseAmount c]) in
    match checkCoinbaseAmount (blk st) c with
    | Returned None => run checkMerkleRoots st1
    | o => (o, st1)
    end.
Proof.
  unfold ValidateBlock_tail, run, bind, getBlock, log, check_outcome. cbn [blk calls].
  destruct (checkCoinbaseAmount (blk st) c) as [[e |] |]; reflexivity.
Qed.

(** The two merkle checks, on a block that carries the status [ts]. *)
Lemma merkle_run st ts :
  bc.TransactionStatus (blk st) = Some ts ->
  run checkMerkleRoots st =
    let b := blk st in
    let status := bc.TransactionStatus.VerifyStatus ts in
    let st1 := mkSt b (calls st ++ [EvTxMerkleRoot (bc.Transactions b)]) in
    let st2 := mkSt b (calls st1 ++ [EvTxStatusMerkleRoot status]) in
    match TxMerkleRoot (bc.Transactions b) with
    | (_, Some e) => (Returned (Some (Wrap e "computing transaction id merkle root")), st1)
    | (txMerkleRoot, None) =>
        if Hash.eqb txMerkleRoot (bc.TransactionsRoot b) then
          match TxStatusMerkleRoot status with
          | (_, Some e) =>
              (Returned (Some (Wrap e "computing transaction status merkle root")), st2)
          | (txStatusHash, None) =>
              if Hash.eqb txStatusHash (bc.TransactionStatusHash b) then
                (Returned None, st2)
              else
                (Returned (Some (WithDetailf errMismatchedMerkleRoot
                                   "transaction status merkle root" [])), st2)
          end
        else
          (Returned (Some (WithDetailf errMismatchedMerkleRoot
                             "transaction id merkle root" [])), st1)
    end.
Proof.
  intros Hts. unfold checkMerkleRoots, run, bind, getBlock, log. cbn [blk calls].
  cbv zeta.
  destruct (TxMerkleRoot (bc.Transactions (blk st))) as [h [e |]]; [reflexivity |].
  cbn [blk calls].
  destruct (Hash.eqb h (bc.TransactionsRoot (blk st))); cbn [negb]; [| reflexivity].
  rewrite Hts.
  destruct (TxStatusMerkleRoot (bc.TransactionStatus.VerifyStatus ts)) as [h2 [e |]];
    [reflexivity |].
  cbn [blk calls].
  destruct (Hash.eqb h2 (bc.TransactionStatusHash (blk st))); reflexivity.
Qed.

(** A run whose loop ran to its end. *)
Lemma ValidateBlock_after_loop b parent block authoritys position tmp g c st :
  ProposerAuthenticated b parent block authoritys tmp ->
  txLoop (bc.Transactions b) 0 0 (u64 (BlockSubsidy (bc.Height b)))
         (loop_start b block tmp) = (Next (g, c), st) ->
  ValidateBlock b parent block authoritys position = run (ValidateBlock_tail c) st /\
  exists evs,
    passed 0 (bc.Transactions b) evs /\
    st = validated_state b block tmp evs /\
    c = u64 (BlockSubsidy (bc.Height b) + fees evs).
Proof.
  intros Hauth Hrun. split.
  - rewrite (ValidateBlock_enters _ _ _ _ _ _ Hauth).
    rewrite (run_bind_Next _ _ _ _ _ Hrun). reflexivity.
  - rewrite <- (firstn_all (bc.Transactions b)) in Hrun at 1.
    fold (loop_prefix b block tmp (length (bc.Transactions b))) in Hrun.
    destruct (loop_prefix_Next _ _ _ _ _ _ _ Hrun) as (evs & Hp & Hs & _ & Hc & _).
    rewrite firstn_all in Hp. eauto.
Qed.

(** The verdicts of [checkCoinbaseAmount]: two errors of its own making,
    or the error that the lookup of the output handed up. *)
Lemma checkCoinbaseAmount_errors b amount e :
  checkCoinbaseAmount b amount = Returned (Some e) ->
  (bc.Transactions b = [] /\ e = Wrap ErrWrongCoinbaseTransaction "block is empty")
  \/ (exists tx id output,
        head (bc.Transactions b) = Some tx /\ head (bc.ResultIds tx) = Some id /\
        Output tx id = inr output /\
        bc.Amount (bc.Value (bc.Source output)) <> amount /\
        e = Wrap ErrWrongCoinbaseTransaction "dismatch output amount")
  \/ (exists tx id,
        head (bc.Transactions b) = Some tx /\ head (bc.ResultIds tx) = Some id /\
        Output tx id = inl e).
Proof.
  unfold checkCoinbaseAmount.
  destruct (bc.Transactions b) as [| tx rest]; [intros [= <-]; left; auto |].
  destruct (bc.ResultIds tx) as [| id ids] eqn:Hids; [discriminate |].
  destruct (Output tx id) as [e' | output] eqn:Hout.
  - intros [= <-]. right. right. exists tx, id. cbn. rewrite Hids. auto.
  - destruct (Z.eqb_spec (bc.Amount (bc.Value (bc.Source output))) amount);
      cbn [negb]; [discriminate |].
    intros [= <-]. right. left. exists tx, id, output. cbn. rewrite Hids. auto.
Qed.

(** C7: once every transaction has passed and the coinbase check has
    accepted, [ValidateBlock] computes the merkle root of the transactions
    in their order and compares it with the header's; if they agree it
    computes the merkle root of the status flags, one per transaction in
    index order, and compares it with the header's.  A mismatch returns
    [errMismatchedMerkleRoot] with a detail that names the root, the first
    mismatch ending the run; [ValidateBlock] returns [nil] exactly when
    both roots are computed without error and agree with the header. *)
Theorem C7_merkle_commitments (b : bc.Block) (parent : state.BlockNode)
    (block : types.Block) (authoritys : gmap string string) (position : Z)
    (tmp : list Z) (g c : Z) (st : St) :
  ProposerAuthenticated b parent block authoritys tmp ->
  txLoop (bc.Transactions b) 0 0 (u64 (BlockSubsidy (bc.Height b)))
         (loop_start b block tmp) = (Next (g, c), st) ->
  checkCoinbaseAmount (blk st) c = Returned None ->
  exists evs,
    passed 0 (bc.Transactions b) evs /\
    length (flags evs) = length (bc.Transactions b) /\
    blk (snd (ValidateBlock b parent block authoritys position)) =
      bc.set_TransactionStatus b (bc.TransactionStatus.mk 1 (flags evs)) /\
    (forall h,
       TxMerkleRoot (bc.Transactions b) = (h, None) ->
       h <> bc.TransactionsRoot b ->
       ValidateBlock b parent block authoritys position =
         (Returned (Some (WithDetailf errMismatchedMerkleRoot
                            "transaction id merkle root" [])),
          mkSt (blk st)
               (calls st ++ [EvCheckCoinbaseAmount c;
                             EvTxMerkleRoot (bc.Transactions b)]))) /\
    (forall h,
       TxMerkleRoot (bc.Transactions b) = (bc.TransactionsRoot b, None) ->
       TxStatusMerkleRoot (flags evs) = (h, None) ->
       h <> bc.TransactionStatusHash b ->
       ValidateBlock b parent block authoritys position =
         (Returned (Some (WithDetailf errMismatchedMerkleRoot
                            "transaction status merkle root" [])),
          mkSt (blk st)
               (calls st ++ [EvCheckCoinbaseAmount c;
                             EvTxMerkleRoot (bc.Transactions b);
                             EvTxStatusMerkleRoot (flags evs)]))) /\
    (fst (ValidateBlock b parent block authoritys position) = Returned None <->
     TxMerkleRoot (bc.Transactions b) = (bc.TransactionsRoot b, None) /\
     TxStatusMerkleRoot (flags evs) = (bc.TransactionStatusHash b, None)).
Proof.
  intros Hauth Hrun Hcoin.
  destruct (ValidateBlock_after_loop _ _ _ _ position _ _ _ _ Hauth Hrun)
    as (Hvb & evs & Hp & -> & Hc).
  exists evs. split; [exact Hp |].
  split; [apply (passed_flags_length _ _ _ Hp) |].
  rewrite Hvb, tail_run, Hcoin. cbv zeta.
  erewrite merkle_run by reflexivity.
  cbv zeta. cbn [blk calls validated_state bc.set_TransactionStatus bc.Transactions
                 bc.TransactionsRoot bc.TransactionStatusHash
                 bc.TransactionStatus.VerifyStatus].
  destruct (TxMerkleRoot (bc.Transactions b)) as [h [e |]] eqn:Hroot.
  { split; [reflexivity |]. split; [intros h' [=] |]. split; [intros h' [=] |].
    split; [discriminate | intros [[=] _]]. }
  destruct (Hash.eqb h (bc.TransactionsRoot b)) eqn:Hh;
    [apply Hash_eqb_eq in Hh; subst h | apply Hash_eqb_neq in Hh].
  2: { split; [reflexivity |]. split.
       - intros h' [= <-] _. rewrite <- app_assoc. reflexivity.
       - split; [intros h' [=]; congruence |].
         split; [discriminate | intros [[=] _]; congruence]. }
  destruct (TxStatusMerkleRoot (flags evs)) as [h2 [e |]] eqn:Hstatus.
  { split; [reflexivity |]. split; [intros h' [= <-] Hne; congruence |].
    split; [intros h' _ [=] |]. split; [discriminate | intros [_ [=]]]. }
  destruct (Hash.eqb h2 (bc.TransactionStatusHash b)) eqn:Hh2;
    [apply Hash_eqb_eq in Hh2; subst h2 | apply Hash_eqb_neq in Hh2].
  - split; [reflexivity |]. split; [intros h' [= <-] Hne; congruence |].
    split; [intros h' _ [= <-] Hne; congruence |].
    split; [auto | reflexivity].
  - split; [reflexivity |]. split; [intros h' [= <-] Hne; congruence |].
    split.
    + intros h' _ [= <-] _. rewrite <- !app_assoc. reflexivity.
    + split; [discriminate | intros [_ [=]]; congruence].
Qed.

End Commitments.

(** ** Before the loop, and a second run *)

Section Runs.
Context `{Collaborators}.

Lemma ValidateBlock_header_fails b parent block authoritys position e :
  ValidateBlockHeader b parent = Some e ->
  ValidateBlock b parent block authoritys position = (Returned (Some e), mkSt b []).
Proof.
  intros Hh. unfold ValidateBlock, ValidateBlock_body, run.
  unfold bind at 1. cbn [getBlock blk]. unfold bind at 1.
  rewrite Hh. reflexivity.
Qed.

Lemma ValidateBlock_key_fails b parent block authoritys position tmp e :
  ValidateBlockHeader b parent = None ->
  proposer_key b authoritys = (tmp, Some e) ->
  ValidateBlock b parent block authoritys position = (Returned (Some e), mkSt b []).
Proof.
  intros Hh Hk. unfold ValidateBlock, ValidateBlock_body, run.
  unfold bind at 1. cbn [getBlock blk]. unfold bind at 1.
  rewrite Hh. cbn [check ret]. unfold proposer_key in Hk. rewrite Hk.
  reflexivity.
Qed.

Lemma ValidateBlock_signature_fails b parent block authoritys position tmp :
  ValidateBlockHeader b parent = None ->
  proposer_key b authoritys = (tmp, None) ->
  Verify (copy_xpub tmp) (types.MarshalText block) (bc.GetSign (bc.GetProof b)) = false ->
  ValidateBlock b parent block authoritys position =
    (Returned (Some (errors_New "Verification signature failed")),
     mkSt b [EvVerify (copy_xpub tmp) (types.MarshalText block)
                      (bc.GetSign (bc.GetProof b)) false]).
Proof.
  intros Hh Hk Hv. unfold ValidateBlock, ValidateBlock_body, run.
  unfold bind at 1. cbn [getBlock blk]. unfold bind at 1.
  rewrite Hh. cbn [check ret]. unfold proposer_key in Hk. rewrite Hk.
  unfold bind at 1. cbn [check ret]. unfold bind at 1. cbn [log blk calls app].
  rewrite Hv. reflexivity.
Qed.

(** What follows the loop leaves the block as the loop left it. *)
Lemma tail_keeps_block c st ts :
  bc.TransactionStatus (blk st) = Some ts ->
  blk (snd (run (ValidateBlock_tail c) st)) = blk st.
Proof.
  intros Hts. rewrite tail_run. cbv zeta.
  destruct (checkCoinbaseAmount (blk st) c) as [[e |] |]; try reflexivity.
  erewrite merkle_run by exact Hts. cbv zeta. cbn [blk calls].
  destruct (TxMerkleRoot _) as [h [e |]]; [reflexivity |].
  destruct (Hash.eqb h _); [| reflexivity].
  destruct (TxStatusMerkleRoot _) as [h2 [e |]]; [reflexivity |].
  destruct (Hash.eqb h2 _); reflexivity.
Qed.

(** A run that reached the loop changes nothing of the block but its
    status. *)
Lemma ValidateBlock_changes_status_only b parent block authoritys position tmp :
  ProposerAuthenticated b parent block authoritys tmp ->
  exists ts,
    blk (snd (ValidateBlock b parent block authoritys position)) =
    bc.set_TransactionStatus b ts.
Proof.
  intros Hauth.
  destruct (txLoop (bc.Transactions b) 0 0 (u64 (BlockSubsidy (bc.Height b)))
              (loop_start b block tmp)) as [[[g c] | o] st] eqn:Hrun.
  - destruct (ValidateBlock_after_loop _ _ _ _ position _ _ _ _ Hauth Hrun)
      as (-> & evs & _ & -> & _).
    erewrite tail_keeps_block by reflexivity. eexists. reflexivity.
  - rewrite (ValidateBlock_enters _ _ _ _ _ _ Hauth), (run_bind_Done _ _ _ _ _ Hrun).
    destruct (loop_exit_cases _ _ _ _ _ Hrun)
      as (k & tx & evs & gasStatus & err & _ & _ & _ & _ & Hcase).
    destruct Hcase as [(_ & _ & ->) | (_ & _ & _ & ->)]; eexists; reflexivity.
Qed.

(** The status that the block carries on entry plays no part in the run. *)
Lemma ValidateBlock_ignores_former_status b parent block authoritys position tmp ts :
  ProposerAuthenticated b parent block authoritys tmp ->
  ValidateBlock (bc.set_TransactionStatus b ts) parent block authoritys position =
  ValidateBlock b parent block authoritys position.
Proof.
  intros Hauth.
  assert (Hauth' : ProposerAuthenticated (bc.set_TransactionStatus b ts)
                     parent block authoritys tmp) by exact Hauth.
  rewrite (ValidateBlock_enters _ _ _ _ _ _ Hauth').
  rewrite (ValidateBlock_enters _ _ _ _ _ _ Hauth).
  reflexivity.
Qed.

(** C8, as amended: [ValidateBlock] is a function of its arguments, of
    what its collaborators answer and of what the clock reads, so two runs
    on the same inputs under the same reading of the clock agree.  It is
    also idempotent: a second run under that reading, on the block as the
    first run left it, returns the same error, leaves the same block, with
    the same transaction status, and makes the same steps. *)
Theorem C8_second_run_agrees (b : bc.Block) (parent : state.BlockNode)
    (block : types.Block) (authoritys : gmap string string) (position : Z) :
  ValidateBlock (blk (snd (ValidateBlock b parent block authoritys position)))
                parent block authoritys position =
  ValidateBlock b parent block authoritys position.
Proof.
  destruct (ValidateBlockHeader b parent) as [e |] eqn:Hh.
  { rewrite (ValidateBlock_header_fails _ _ _ _ _ _ Hh). cbn [snd blk].
    apply ValidateBlock_header_fails, Hh. }
  destruct (proposer_key b authoritys) as [tmp [e |]] eqn:Hk.
  { rewrite (ValidateBlock_key_fails _ _ _ _ _ _ _ Hh Hk). cbn [snd blk].
    apply (ValidateBlock_key_fails _ _ _ _ _ _ _ Hh Hk). }
  destruct (Verify (copy_xpub tmp) (types.MarshalText block)
              (bc.GetSign (bc.GetProof b))) eqn:Hv.
  2: { rewrite (ValidateBlock_signature_fails _ _ _ _ _ _ Hh Hk Hv). cbn [snd blk].
       apply (ValidateBlock_signature_fails _ _ _ _ _ _ Hh Hk Hv). }
  assert (Hauth : ProposerAuthenticated b parent block authoritys tmp)
    by (split; [exact Hh | split; [exact Hk | exact Hv]]).
  destruct (ValidateBlock_changes_status_only _ _ _ _ position _ Hauth) as [ts ->].
  apply (ValidateBlock_ignores_former_status _ _ _ _ _ _ _ Hauth).
Qed.

End Runs.

(** ** The proposer's key *)

(** [hex.Decode] takes its input two bytes at a time. *)
Lemma Decode_pairs (P : list Z -> Prop) :
  P [] -> (forall p, P [p]) -> (forall p q rest, P rest -> P (p :: q :: rest)) ->
  forall src, P src.
Proof.
  intros Hnil Hone Hstep src.
  assert (Hboth : P src /\ forall p, P (p :: src)).
  { induction src as [| q rest [IH1 IH2]]; [split; auto |].
    split; [apply IH2 |]. intros p. apply Hstep, IH1. }
  exact (proj1 Hboth).
Qed.

Lemma Decode_ok_iff src :
  snd (hex.Decode src) = None <->
  Nat.even (length src) = true /\
  forallb hex.isHexChar src = true.
Proof.
  induction src as [| p | p q rest IH] using Decode_pairs.
  - cbn. tauto.
  - cbn. unfold hex.isHexChar.
    destruct (hex.fromHexChar p); cbn; split; try discriminate; intros [? ?]; discriminate.
  - cbn [hex.Decode length Nat.even forallb]. unfold hex.isHexChar at 1 2.
    destruct (hex.fromHexChar p) as [a |]; cbn [andb];
      [| split; [discriminate | intros [_ ?]; discriminate]].
    destruct (hex.fromHexChar q) as [c |]; cbn [andb];
      [| split; [discriminate | intros [_ ?]; discriminate]].
    destruct (hex.Decode rest) as [out err]. exact IH.
Qed.

Lemma Decode_error_kind src e :
  snd (hex.Decode src) = Some e ->
  e = hex_ErrLength \/ exists c, e = hex_InvalidByteError c.
Proof.
  induction src as [| p | p q rest IH] using Decode_pairs.
  - discriminate.
  - cbn. destruct (hex.fromHexChar p); intros [= <-]; eauto.
  - cbn [hex.Decode].
    destruct (hex.fromHexChar p) as [a |]; [| intros [= <-]; eauto].
    destruct (hex.fromHexChar q) as [c |]; [| intros [= <-]; eauto].
    destruct (hex.Decode rest) as [out err]. exact IH.
Qed.

(** [hex.DecodeString] fails exactly on the keys that are not well formed. *)
Lemma DecodeString_ok_iff s :
  snd (hex.DecodeString s) = None <-> hex.well_formed s = true.
Proof.
  unfold hex.DecodeString, hex.well_formed.
  rewrite Decode_ok_iff, andb_true_iff. reflexivity.
Qed.

Section Proposer.
Context `{Collaborators}.

(** A registered key that is not well-formed hexadecimal ends the run with
    an error of [encoding/hex], before any signature is checked. *)
Lemma malformed_key_is_rejected b parent block authoritys position key :
  ValidateBlockHeader b parent = None ->
  authoritys !! bc.GetControlProgram (bc.GetProof b) = Some key ->
  hex.well_formed key = false ->
  exists e,
    (e = hex_ErrLength \/ exists c, e = hex_InvalidByteError c) /\
    ValidateBlock b parent block authoritys position = (Returned (Some e), mkSt b []).
Proof.
  intros Hh Hkey Hbad.
  destruct (proposer_key b authoritys) as [tmp err] eqn:Hk.
  assert (Herr : snd (hex.DecodeString key) = err).
  { unfold proposer_key in Hk. rewrite Hkey in Hk.
    change (default "" (Some key)) with key in Hk.
    rewrite Hk. reflexivity. }
  destruct err as [e |].
  - exists e. split; [apply (Decode_error_kind _ _ Herr) |].
    apply (ValidateBlock_key_fails _ _ _ _ _ _ _ Hh Hk).
  - apply DecodeString_ok_iff in Herr. congruence.
Qed.

(** C1, on the code: a control program that the registry does not hold is
    looked up as the empty string, which decodes without error to no byte
    at all; the key is then the array of 64 zero bytes and the signature
    check runs under it.  A signature that fails under the zero key gets
    the signature error, not a decoding error; one that verifies under it
    authenticates the proposer. *)
Theorem C1_absent_key_reaches_signature_check (b : bc.Block)
    (parent : state.BlockNode) (block : types.Block)
    (authoritys : gmap string string) (position : Z) :
  ValidateBlockHeader b parent = None ->
  authoritys !! bc.GetControlProgram (bc.GetProof b) = None ->
  proposer_key b authoritys = ([], None) /\
  (Verify (repeat 0 64%nat) (types.MarshalText block) (bc.GetSign (bc.GetProof b)) = false ->
   ValidateBlock b parent block authoritys position =
     (Returned (Some (errors_New "Verification signature failed")),
      mkSt b [EvVerify (repeat 0 64%nat) (types.MarshalText block)
                       (bc.GetSign (bc.GetProof b)) false])) /\
  (Verify (repeat 0 64%nat) (types.MarshalText block) (bc.GetSign (bc.GetProof b)) = true ->
   ProposerAuthenticated b parent block authoritys []).
Proof.
  intros Hh Habsent.
  assert (Hk : proposer_key b authoritys = ([], None)).
  { unfold proposer_key. rewrite Habsent. reflexivity. }
  split; [exact Hk |]. split.
  - intros Hv. apply (ValidateBlock_signature_fails _ _ _ _ _ _ Hh Hk Hv).
  - intros Hv. split; [exact Hh | split; [exact Hk | exact Hv]].
Qed.

End Proposer.

(** ** The statements on the small chain *)

(** Every block of the registered control program is authenticated: its
    header extends [Demo.parent] and its signature starts with 7. *)
Lemma Demo_authenticated root txs :
  ProposerAuthenticated (H := Demo.collaborators) (Demo.block_with "cp" root txs)
    Demo.parent Demo.canonical Demo.registry [171].
Proof. repeat split. Defined.

(** An unregistered control program gets the signature error. *)
Lemma C1_witness :
  ValidateBlock (H := Demo.collaborators) Demo.unregistered_block Demo.parent
    Demo.canonical Demo.registry 0 =
  (Returned (Some (errors_New "Verification signature failed")),
   mkSt Demo.unregistered_block [EvVerify (repeat 0 64%nat) [1; 2; 3] [7] false]).
Proof.
  apply (proj1 (proj2 (C1_absent_key_reaches_signature_check
                          (H := Demo.collaborators) Demo.unregistered_block Demo.parent
                          Demo.canonical Demo.registry 0 eq_refl eq_refl))).
  reflexivity.
Defined.

(** The second transaction takes the gas over the ceiling. *)
Lemma C2_witness :
  fst (ValidateBlock (H := Demo.collaborators) Demo.costly_block Demo.parent
         Demo.canonical Demo.registry 0) = Returned (Some errOverBlockLimit).
Proof.
  destruct (C2_gas_ceiling_stops_validation (H := Demo.collaborators)
              Demo.costly_block Demo.parent Demo.canonical Demo.registry 0
              [171] 1 Demo.costly 0 500
              (validated_state Demo.costly_block Demo.canonical [171]
                 [EvValidateTx 0 Demo.coinbase (Build_GasState 0 0 true) None])
              (Build_GasState 0 10000001 true) None
              (Demo_authenticated 2 _) eq_refl eq_refl eq_refl eq_refl eq_refl)
    as (evs & _ & _ & _ & _ & Hrun & _).
  rewrite Hrun. reflexivity.
Defined.

(** A header that fails every linkage check is a version regression. *)
Lemma C5_witness :
  ValidateBlockHeader (H := Demo.collaborators) Demo.unlinked_block Demo.parent =
  Some (WithDetailf errVersionRegression
          "previous block verson %d, current block version %d"
          [ArgInt 1; ArgInt 0]).
Proof.
  apply (proj1 (C5_header_checks_in_order (H := Demo.collaborators)
                  Demo.unlinked_block Demo.parent)).
  reflexivity.
Defined.

(** A linked header with a timestamp inside the window is accepted. *)
Lemma C6_witness :
  ValidateBlockHeader (H := Demo.collaborators) Demo.good_block Demo.parent = None.
Proof.
  apply (proj1 (C6_timestamp_window (H := Demo.collaborators)
                  Demo.good_block Demo.parent
                  ltac:(discriminate) eq_refl eq_refl eq_refl)).
  split; [discriminate | reflexivity].
Defined.

(** A header that commits to another transactions root. *)
Lemma C7_witness :
  fst (ValidateBlock (H := Demo.collaborators) Demo.wrong_root_block Demo.parent
         Demo.canonical Demo.registry 0) =
  Returned (Some (WithDetailf errMismatchedMerkleRoot "transaction id merkle root" [])).
Proof.
  destruct (C7_merkle_commitments (H := Demo.collaborators)
              Demo.wrong_root_block Demo.parent Demo.canonical Demo.registry 0
              [171] 0 500
              (validated_state Demo.wrong_root_block Demo.canonical [171]
                 [EvValidateTx 0 Demo.coinbase (Build_GasState 0 0 true) None])
              (Demo_authenticated 5 _) eq_refl eq_refl)
    as (evs & _ & _ & _ & Hroot & _).
  rewrite (Hroot (Demo.h 1) eq_refl ltac:(discriminate)). reflexivity.
Defined.

(** The block stopped by the gas ceiling keeps the two flags recorded. *)
Lemma C10_witness :
  bc.TransactionStatus
    (blk (snd (ValidateBlock (H := Demo.collaborators) Demo.costly_block Demo.parent
                 Demo.canonical Demo.registry 0))) =
  Some (bc.TransactionStatus.mk 1
          [bc.Build_TxVerifyResult false; bc.Build_TxVerifyResult false]).
Proof.
  destruct (C10_partial_status_is_left_on_the_block (H := Demo.collaborators)
              Demo.costly_block Demo.parent Demo.canonical Demo.registry 0 [171]
              (Returned (Some errOverBlockLimit))
              (validated_state Demo.costly_block Demo.canonical [171]
                 [EvValidateTx 0 Demo.coinbase (Build_GasState 0 0 true) None;
                  EvValidateTx 1 Demo.costly (Build_GasState 0 10000001 true) None])
              (Demo_authenticated 2 _) eq_refl)
    as (_ & Hrun & _).
  rewrite Hrun. reflexivity.
Defined.

(** ** The loop in closed form *)

Section LoopClosedForm.
Context `{Collaborators}.

(** The totals and the state of a loop that ran to its end. *)
Lemma ValidateBlock_after_loop_sums b block tmp g c st :
  txLoop (bc.Transactions b) 0 0 (u64 (BlockSubsidy (bc.Height b)))
         (loop_start b block tmp) = (Next (g, c), st) ->
  exists evs,
    st = validated_state b block tmp evs /\
    g = u64 (gas evs) /\
    c = u64 (BlockSubsidy (bc.Height b) + fees evs).
Proof.
  intros Hrun.
  rewrite <- (firstn_all (bc.Transactions b)) in Hrun at 1.
  fold (loop_prefix b block tmp (length (bc.Transactions b))) in Hrun.
  destruct (loop_prefix_Next _ _ _ _ _ _ _ Hrun) as (evs & _ & Hs & Hg & Hc & _).
  eauto.
Qed.

(** The loop either runs to its end, when every step is gas-valid and the
    running total stays within the ceiling, or stops at the first step [k]
    that is not gas-valid or takes the total over the ceiling.  Its steps
    are the first steps of [validation_steps], and the flags it leaves are
    theirs. *)
Lemma txLoop_closed_form txs : forall i g c b fl cs,
  length fl = i ->
  let evs := validation_steps b txs i fl in
  let s := mkSt (bc.set_TransactionStatus b (bc.TransactionStatus.mk 1 fl)) cs in
  (forallb gas_valid evs && within_ceiling g evs = true /\
   exists g' c',
     txLoop txs i g c s =
       (Next (g', c'),
        mkSt (bc.set_TransactionStatus b (bc.TransactionStatus.mk 1 (fl ++ flags evs)))
             (cs ++ evs)))
  \/
  (exists k tx gasStatus err,
     evs !! k = Some (EvValidateTx (i + k) tx gasStatus err) /\
     forallb gas_valid (take k evs) && within_ceiling g (take k evs) = true /\
     ((GasValid gasStatus = false /\
       txLoop txs i g c s =
         (Done (Returned (Wrapf err invalid_tx_msg
                            [ArgInt (Z.of_nat (i + k));
                             ArgInt (Z.of_nat (length (bc.Transactions b)))])),
          mkSt (bc.set_TransactionStatus b
                  (bc.TransactionStatus.mk 1 (fl ++ flags (take k evs))))
               (cs ++ take (S k) evs)))
      \/
      (GasValid gasStatus = true /\
       within_ceiling g (take (S k) evs) = false /\
       txLoop txs i g c s =
         (Done (Returned (Some errOverBlockLimit)),
          mkSt (bc.set_TransactionStatus b
                  (bc.TransactionStatus.mk 1 (fl ++ flags (take (S k) evs))))
               (cs ++ take (S k) evs))))).
Proof.
  induction txs as [| tx rest IH]; intros i g c b fl cs Hlen evs s.
  - left. split; [reflexivity |]. exists g, c. subst evs s. cbn.
    rewrite !app_nil_r. reflexivity.
  - subst evs. cbn [validation_steps].
    destruct (ValidateTx tx (bc.set_TransactionStatus b (bc.TransactionStatus.mk 1 fl)))
      as [gasStatus err] eqn:Hv.
    set (ev := EvValidateTx i tx gasStatus err).
    set (fl' := fl ++ [bc.Build_TxVerifyResult (not_nil err)]).
    set (evs' := validation_steps b rest (S i) fl').
    assert (Hstep := txLoop_step tx rest i g c s (bc.TransactionStatus.mk 1 fl)
                       gasStatus err eq_refl Hlen Hv).
    cbv zeta in Hstep. fold ev in Hstep.
    destruct (GasValid gasStatus) eqn:Hvalid; cbn [negb] in Hstep.
    + destruct (MaxBlockGas <? add64 g (u64 (GasUsed gasStatus))) eqn:Hover.
      * right. exists 0%nat, tx, gasStatus, err. rewrite Nat.add_0_r.
        split; [reflexivity |]. split; [reflexivity |]. right.
        split; [exact Hvalid |]. split.
        { cbn. rewrite Hover. reflexivity. }
        rewrite Hstep. reflexivity.
      * assert (Hlen' : length fl' = S i) by (unfold fl'; rewrite length_app; cbn; lia).
        pose proof (IH (S i) (add64 g (u64 (GasUsed gasStatus)))
                      (add64 c (BTMValue gasStatus)) b fl' (cs ++ [ev]) Hlen') as IH'.
        cbv zeta in IH'. fold evs' in IH'.
        assert (Hgo : txLoop (tx :: rest) i g c s =
                      txLoop rest (S i) (add64 g (u64 (GasUsed gasStatus)))
                        (add64 c (BTMValue gasStatus))
                        (mkSt (bc.set_TransactionStatus b
                                 (bc.TransactionStatus.mk 1 fl')) (cs ++ [ev])))
          by (rewrite Hstep; reflexivity).
        assert (Hflags : forall l, fl ++ flags (ev :: l) = fl' ++ flags l).
        { intros l. unfold fl'. cbn [flags flat_map flag_of ev].
          fold (flags l). rewrite <- app_assoc. reflexivity. }
        assert (Hcalls : forall l, cs ++ ev :: l = (cs ++ [ev]) ++ l)
          by (intros l; rewrite <- app_assoc; reflexivity).
        destruct IH' as [(Hall & g' & c' & Hrun)
                        | (k & tx' & gs' & err' & Hk & Hpre & Hcase)].
        -- left. split.
           { cbn [forallb within_ceiling gas_valid gas_of ev]. cbv zeta.
             rewrite Hvalid, Hover. exact Hall. }
           exists g', c'. rewrite Hgo, Hrun, (Hflags evs'), (Hcalls evs'). reflexivity.
        -- right. exists (S k), tx', gs', err'.
           replace (i + S k)%nat with (S i + k)%nat by lia.
           split; [exact Hk |]. split.
           { cbn [take forallb within_ceiling gas_valid gas_of ev]. cbv zeta.
             rewrite Hvalid, Hover. exact Hpre. }
           cbn [take]. rewrite (Hcalls (take (S k) evs')).
           destruct Hcase as [(Hinv & Hrun) | (Hval & Hceil & Hrun)].
           ++ left. split; [exact Hinv |].
              rewrite Hgo, Hrun, (Hflags (take k evs')). reflexivity.
           ++ right. split; [exact Hval |]. split.
              { cbn [within_ceiling gas_of ev]. cbv zeta.
                rewrite Hover. exact Hceil. }
              rewrite Hgo, Hrun, (Hflags (take (S k) evs')). reflexivity.
    + right. exists 0%nat, tx, gasStatus, err. rewrite Nat.add_0_r.
      split; [reflexivity |]. split; [reflexivity |]. left.
      split; [exact Hvalid |]. rewrite Hstep. unfold s. cbn.
      rewrite app_nil_r. reflexivity.
Qed.

Lemma validation_steps_length b txs i fl :
  length (validation_steps b txs i fl) = length txs.
Proof.
  revert i fl. induction txs as [| tx rest IH]; intros i fl; [reflexivity |].
  cbn [validation_steps]. destruct (ValidateTx tx _) as [gasStatus err].
  cbn. rewrite IH. reflexivity.
Qed.

Lemma validation_steps_are_ValidateTx b txs i fl :
  Forall (fun ev => is_ValidateTx ev = true) (validation_steps b txs i fl).
Proof.
  revert i fl. induction txs as [| tx rest IH]; intros i fl; [constructor |].
  cbn [validation_steps]. destruct (ValidateTx tx _) as [gasStatus err].
  constructor; [reflexivity | apply IH].
Qed.

Lemma flags_length_ValidateTx evs :
  Forall (fun ev => is_ValidateTx ev = true) evs -> length (flags evs) = length evs.
Proof.
  unfold flags. induction 1 as [| ev evs Hev _ IH]; [reflexivity |].
  destruct ev; try discriminate. cbn. rewrite IH. reflexivity.
Qed.

(** The first [k] steps leave [k] flags. *)
Lemma validation_steps_flags_take b txs i fl k :
  (k <= length txs)%nat ->
  length (flags (take k (validation_steps b txs i fl))) = k.
Proof.
  intros Hk. rewrite flags_length_ValidateTx.
  - rewrite length_take, validation_steps_length. lia.
  - apply Forall_take, validation_steps_are_ValidateTx.
Qed.

(** Steps that all pass: every one of them is gas-valid, and so is every
    shorter run of them. *)
Lemma passes_take g evs k :
  forallb gas_valid evs && within_ceiling g evs = true ->
  forallb gas_valid (take k evs) && within_ceiling g (take k evs) = true.
Proof.
  revert g k. induction evs as [| ev evs IH]; intros g k Hall.
  - rewrite take_nil. reflexivity.
  - destruct k as [| k]; [reflexivity |].
    cbn [take forallb within_ceiling] in *. cbv zeta in *.
    apply andb_true_iff in Hall as [Hv Hc].
    apply andb_true_iff in Hv as [Hv1 Hv2].
    apply andb_true_iff in Hc as [Hc1 Hc2].
    rewrite Hv1, Hc1. cbn [andb].
    apply IH. rewrite Hv2, Hc2. reflexivity.
Qed.

Lemma passes_lookup g evs k ev :
  forallb gas_valid evs && within_ceiling g evs = true ->
  evs !! k = Some ev -> gas_valid ev = true.
Proof.
  intros Hall Hk. apply andb_true_iff in Hall as [Hv _].
  rewrite forallb_forall in Hv. apply Hv.
  apply list_elem_of_In, list_elem_of_lookup. eauto.
Qed.

(** The loop of an authenticated block in closed form. *)
Lemma loop_closed_form b block tmp :
  let evs := validation_steps b (bc.Transactions b) 0 [] in
  let loop := txLoop (bc.Transactions b) 0 0 (u64 (BlockSubsidy (bc.Height b)))
                     (loop_start b block tmp) in
  (forallb gas_valid evs && within_ceiling 0 evs = true /\
   loop = (Next (u64 (gas evs), u64 (BlockSubsidy (bc.Height b) + fees evs)),
           validated_state b block tmp evs))
  \/
  (exists k tx gasStatus err,
     evs !! k = Some (EvValidateTx k tx gasStatus err) /\
     forallb gas_valid (take k evs) && within_ceiling 0 (take k evs) = true /\
     ((GasValid gasStatus = false /\
       loop =
         (Done (Returned (Wrapf err invalid_tx_msg
                            [ArgInt (Z.of_nat k);
                             ArgInt (Z.of_nat (length (bc.Transactions b)))])),
          mkSt (bc.set_TransactionStatus b
                  (bc.TransactionStatus.mk 1 (flags (take k evs))))
               (calls (validated_state b block tmp (take (S k) evs)))))
      \/
      (GasValid gasStatus = true /\
       within_ceiling 0 (take (S k) evs) = false /\
       loop = (Done (Returned (Some errOverBlockLimit)),
               validated_state b block tmp (take (S k) evs))))).
Proof.
  intros evs loop.
  destruct (txLoop_closed_form (bc.Transactions b) 0 0
              (u64 (BlockSubsidy (bc.Height b))) b []
              (calls (loop_start b block tmp)) eq_refl)
    as [(Hall & g' & c' & Hrun)
       | (k & tx & gasStatus & err & Hk & Hpre & Hcase)].
  - left. split; [exact Hall |].
    change (txLoop _ _ _ _ _) with loop in Hrun. unfold loop in *.
    destruct (ValidateBlock_after_loop_sums b block tmp g' c' _ Hrun)
      as (evs0 & Hs & -> & ->).
    assert (evs0 = evs) as ->.
    { apply (f_equal calls) in Hs. cbn in Hs. injection Hs as Hs. exact (eq_sym Hs). }
    rewrite Hrun. reflexivity.
  - right. exists k, tx, gasStatus, err.
    split; [exact Hk |]. split; [exact Hpre |].
    destruct Hcase as [(Hinv & Hrun) | (Hval & Hceil & Hrun)].
    + left. split; [exact Hinv |]. exact Hrun.
    + right. split; [exact Hval |]. split; [exact Hceil |]. exact Hrun.
Qed.

End LoopClosedForm.

(** ** Every run, case by case *)

Section Cases.
Context `{Collaborators}.

(** How a run can go before the loop. *)
Lemma ValidateBlock_cases b parent block authoritys position :
  (exists e,
     ValidateBlockHeader b parent = Some e /\
     ValidateBlock b parent block authoritys position = (Returned (Some e), mkSt b []))
  \/ (exists tmp e,
        ValidateBlockHeader b parent = None /\
        proposer_key b authoritys = (tmp, Some e) /\
        ValidateBlock b parent block authoritys position = (Returned (Some e), mkSt b []))
  \/ (exists tmp,
        ValidateBlockHeader b parent = None /\
        proposer_key b authoritys = (tmp, None) /\
        Verify (copy_xpub tmp) (types.MarshalText block)
               (bc.GetSign (bc.GetProof b)) = false /\
        ValidateBlock b parent block authoritys position =
          (Returned (Some (errors_New "Verification signature failed")),
           mkSt b [EvVerify (copy_xpub tmp) (types.MarshalText block)
                            (bc.GetSign (bc.GetProof b)) false]))
  \/ (exists tmp,
        ProposerAuthenticated b parent block authoritys tmp /\
        ValidateBlock b parent block authoritys position =
          run (sums <- txLoop (bc.Transactions b) 0 0 (u64 (BlockSubsidy (bc.Height b))) ;;
               ValidateBlock_tail (snd sums))
              (loop_start b block tmp)).
Proof.
  destruct (ValidateBlockHeader b parent) as [e |] eqn:Hh.
  { left. exists e. split; [reflexivity |]. apply ValidateBlock_header_fails, Hh. }
  destruct (proposer_key b authoritys) as [tmp [e |]] eqn:Hk.
  { right. left. exists tmp, e. split; [reflexivity |]. split; [reflexivity |].
    apply (ValidateBlock_key_fails _ _ _ _ _ _ _ Hh Hk). }
  destruct (Verify (copy_xpub tmp) (types.MarshalText block)
              (bc.GetSign (bc.GetProof b))) eqn:Hv.
  - right. right. right. exists tmp.
    assert (Hauth : ProposerAuthenticated b parent block authoritys tmp)
      by (split; [exact Hh | split; [exact Hk | exact Hv]]).
    split; [exact Hauth |]. apply ValidateBlock_enters, Hauth.
  - right. right. left. exists tmp.
    split; [reflexivity |]. split; [reflexivity |]. split; [exact Hv |].
    apply (ValidateBlock_signature_fails _ _ _ _ _ _ Hh Hk Hv).
Qed.

(** An authenticated proposer is authenticated under the key that the
    registry gives, and under no other. *)
Lemma ProposerAuthenticated_key b parent block authoritys tmp :
  ProposerAuthenticated b parent block authoritys tmp ->
  tmp = fst (proposer_key b authoritys).
Proof. intros (_ & Hk & _). rewrite Hk. reflexivity. Qed.

(** How a run can go after a loop that ran to its end. *)
Lemma tail_cases b block tmp evs :
  let c := u64 (BlockSubsidy (bc.Height b) + fees evs) in
  let st := validated_state b block tmp evs in
  let r := run (ValidateBlock_tail c) st in
  let steps later := mkSt (blk st) (calls st ++ EvCheckCoinbaseAmount c :: later) in
  (checkCoinbaseAmount b c <> Returned None /\
   r = (checkCoinbaseAmount b c, steps []))
  \/ (checkCoinbaseAmount b c = Returned None /\
      ((exists h e,
          TxMerkleRoot (bc.Transactions b) = (h, Some e) /\
          r = (Returned (Some (Wrap e "computing transaction id merkle root")),
               steps [EvTxMerkleRoot (bc.Transactions b)]))
       \/ (exists h,
             TxMerkleRoot (bc.Transactions b) = (h, None) /\
             h <> bc.TransactionsRoot b /\
             r = (Returned (Some (WithDetailf errMismatchedMerkleRoot
                                    "transaction id merkle root" [])),
                  steps [EvTxMerkleRoot (bc.Transactions b)]))
       \/ (TxMerkleRoot (bc.Transactions b) = (bc.TransactionsRoot b, None) /\
           ((exists h e,
               TxStatusMerkleRoot (flags evs) = (h, Some e) /\
               r = (Returned (Some (Wrap e "computing transaction status merkle root")),
                    steps [EvTxMerkleRoot (bc.Transactions b);
                           EvTxStatusMerkleRoot (flags evs)]))
            \/ (exists h,
                  TxStatusMerkleRoot (flags evs) = (h, None) /\
                  h <> bc.TransactionStatusHash b /\
                  r = (Returned (Some (WithDetailf errMismatchedMerkleRoot
                                         "transaction status merkle root" [])),
                       steps [EvTxMerkleRoot (bc.Transactions b);
                              EvTxStatusMerkleRoot (flags evs)]))
            \/ (TxStatusMerkleRoot (flags evs) = (bc.TransactionStatusHash b, None) /\
                r = (Returned None,
                     steps [EvTxMerkleRoot (bc.Transactions b);
                            EvTxStatusMerkleRoot (flags evs)])))))).
Proof.
  intros c st r steps. unfold r. rewrite tail_run. cbv zeta.
  change (checkCoinbaseAmount (blk st) c) with (checkCoinbaseAmount b c).
  destruct (checkCoinbaseAmount b c) as [[e |] |] eqn:Hcoin;
    [left; split; [discriminate | reflexivity]
    | | left; split; [discriminate | reflexivity]].
  right. split; [reflexivity |].
  erewrite merkle_run by reflexivity. cbv zeta.
  cbn [blk calls st validated_state bc.set_TransactionStatus bc.Transactions
       bc.TransactionsRoot bc.TransactionStatusHash bc.TransactionStatus.VerifyStatus].
  unfold steps. cbn [blk calls st validated_state].
  destruct (TxMerkleRoot (bc.Transactions b)) as [h [e |]] eqn:Hroot.
  { left. exists h, e. split; [reflexivity |]. rewrite <- !app_assoc. reflexivity. }
  destruct (Hash.eqb h (bc.TransactionsRoot b)) eqn:Hh;
    [apply Hash_eqb_eq in Hh; subst h | apply Hash_eqb_neq in Hh].
  2: { right. left. exists h. split; [reflexivity |]. split; [exact Hh |].
       rewrite <- !app_assoc. reflexivity. }
  right. right. split; [reflexivity |].
  destruct (TxStatusMerkleRoot (flags evs)) as [h2 [e |]] eqn:Hstatus.
  { left. exists h2, e. split; [reflexivity |]. rewrite <- !app_assoc. reflexivity. }
  destruct (Hash.eqb h2 (bc.TransactionStatusHash b)) eqn:Hh2;
    [apply Hash_eqb_eq in Hh2; subst h2 | apply Hash_eqb_neq in Hh2].
  - right. right. split; [reflexivity |]. rewrite <- !app_assoc. reflexivity.
  - right. left. exists h2. split; [reflexivity |]. split; [exact Hh2 |].
    rewrite <- !app_assoc. reflexivity.
Qed.

(** Among steps of which the first [k] pass, no step before [k] stops the
    loop. *)
Lemma no_stop_before g evs k j ev :
  forallb gas_valid (take k evs) && within_ceiling g (take k evs) = true ->
  (j < k)%nat ->
  evs !! j = Some ev ->
  gas_valid ev = true /\ within_ceiling g (take (S j) evs) = true.
Proof.
  intros Hpre Hjk Hj. split.
  - apply (passes_lookup g (take k evs) j ev Hpre).
    rewrite lookup_take_lt by exact Hjk. exact Hj.
  - pose proof (passes_take g (take k evs) (S j) Hpre) as Hj'.
    rewrite take_take in Hj'. replace (S j `min` k)%nat with (S j) in Hj' by lia.
    apply andb_true_iff in Hj'. apply Hj'.
Qed.

End Cases.

(** ** More on the header *)

Section HeaderAcceptance.
Context `{Collaborators}.

(** The headers that [ValidateBlockHeader] accepts. *)
Lemma ValidateBlockHeader_None_iff (b : bc.Block) (parent : state.BlockNode) :
  ValidateBlockHeader b parent = None <->
  state.Version parent <= bc.Version b /\
  bc.Height b = add64 (state.Height parent) 1 /\
  bc.Bits b = state.CalcNextBits parent /\
  bc.PreviousBlockId b = state.Hash parent /\
  bc.Timestamp b <= add64 (u64 Now_Unix) MaxTimeOffsetSeconds /\
  state.CalcPastMedianTime parent < bc.Timestamp b.
Proof.
  split.
  - unfold ValidateBlockHeader.
    destruct (Z.ltb_spec (bc.Version b) (state.Version parent)) as [Hv | Hv];
      [discriminate |].
    destruct (Z.eqb_spec (bc.Height b) (add64 (state.Height parent) 1)) as [Hh | Hh];
      cbn [negb]; [| discriminate].
    destruct (Z.eqb_spec (bc.Bits b) (state.CalcNextBits parent)) as [Hb | Hb];
      cbn [negb]; [| discriminate].
    destruct (Hash.eqb (state.Hash parent) (bc.PreviousBlockId b)) eqn:Hp;
      cbn [negb]; [| discriminate].
    apply Hash_eqb_eq in Hp. rewrite checkBlockTime_cases.
    destruct (Z.leb_spec (bc.Timestamp b) (add64 (u64 Now_Unix) MaxTimeOffsetSeconds));
      destruct (Z.ltb_spec (state.CalcPastMedianTime parent) (bc.Timestamp b));
      cbn [andb]; try discriminate.
    intros _. do 3 (split; [assumption |]). split; [symmetry; exact Hp |].
    split; assumption.
  - intros (Hv & Hh & Hb & Hp & Hlate & Hearly).
    rewrite (ValidateBlockHeader_linked b parent Hv Hh Hb Hp), checkBlockTime_cases.
    destruct (Z.leb_spec (bc.Timestamp b) (add64 (u64 Now_Unix) MaxTimeOffsetSeconds));
      destruct (Z.ltb_spec (state.CalcPastMedianTime parent) (bc.Timestamp b));
      cbn [andb]; first [reflexivity | lia].
Qed.

(** X1: [ValidateBlockHeader] returns [nil] exactly when the version does
    not regress, the height is the parent's plus one, the bits are the
    parent's next bits, the previous block identifier is the parent's
    hash, and the timestamp is at most the deadline and greater than the
    parent's past median time.  Any error it returns is one of its five:
    the version, height and previous-block errors with their details, the
    bits error and the timestamp error. *)
Theorem header_verdicts (b : bc.Block) (parent : state.BlockNode) :
  (ValidateBlockHeader b parent = None <->
   state.Version parent <= bc.Version b /\
   bc.Height b = add64 (state.Height parent) 1 /\
   bc.Bits b = state.CalcNextBits parent /\
   bc.PreviousBlockId b = state.Hash parent /\
   bc.Timestamp b <= add64 (u64 Now_Unix) MaxTimeOffsetSeconds /\
   state.CalcPastMedianTime parent < bc.Timestamp b) /\
  (forall e,
     ValidateBlockHeader b parent = Some e ->
     (exists args, e = WithDetail errVersionRegression
                         "previous block verson %d, current block version %d" args)
     \/ (exists args, e = WithDetail errMisorderedBlockHeight
                            "previous block height %d, current block height %d" args)
     \/ e = errBadBits
     \/ (exists args, e = WithDetail errMismatchedBlock
                            "previous block ID %x, current block wants %x" args)
     \/ e = errBadTimestamp).
Proof.
  split; [apply ValidateBlockHeader_None_iff |].
  intros e. unfold ValidateBlockHeader, WithDetailf.
  destruct (bc.Version b <? state.Version parent); [intros [= <-]; eauto |].
  destruct (bc.Height b =? add64 (state.Height parent) 1); cbn [negb];
    [| intros [= <-]; eauto].
  destruct (bc.Bits b =? state.CalcNextBits parent); cbn [negb];
    [| intros [= <-]; auto].
  destruct (Hash.eqb (state.Hash parent) (bc.PreviousBlockId b)); cbn [negb];
    [| intros [= <-]; eauto 6].
  rewrite checkBlockTime_cases.
  destruct (_ && _); [discriminate | intros [= <-]; auto 6].
Qed.

End HeaderAcceptance.

(** X2: a header that is accepted stays accepted as the clock advances, as
    long as the deadline does not leave the range of [uint64]: only the
    upper bound of the timestamp depends on the clock, and it moves up. *)
Theorem header_stays_accepted_later (now later : Collaborators)
    (b : bc.Block) (parent : state.BlockNode) :
  MaxTimeOffsetSeconds (Collaborators := later) =
    MaxTimeOffsetSeconds (Collaborators := now) ->
  0 <= MaxTimeOffsetSeconds (Collaborators := now) ->
  0 <= Now_Unix (Collaborators := now) <= Now_Unix (Collaborators := later) ->
  Now_Unix (Collaborators := later) + MaxTimeOffsetSeconds (Collaborators := later)
    < two64 ->
  ValidateBlockHeader (H := now) b parent = None ->
  ValidateBlockHeader (H := later) b parent = None.
Proof.
  intros Hoff Hpos [Hnow Hlater] Hrange Hacc.
  apply ValidateBlockHeader_None_iff in Hacc as (Hv & Hh & Hb & Hp & Hlate & Hearly).
  apply ValidateBlockHeader_None_iff. repeat (split; [assumption |]).
  split; [| exact Hearly].
  rewrite (deadline_no_wrap (H := later)) by lia.
  rewrite (deadline_no_wrap (H := now)) in Hlate by lia.
  lia.
Qed.

(** ** More on the run *)

Section RunProperties.
Context `{Collaborators}.

(** Steps that all pass contain no step that stops the loop. *)
Lemma passes_never_stops evs k tx gasStatus err :
  forallb gas_valid evs && within_ceiling 0 evs = true ->
  evs !! k = Some (EvValidateTx k tx gasStatus err) ->
  GasValid gasStatus = true /\ within_ceiling 0 (take (S k) evs) = true.
Proof.
  intros Hall Hk. split.
  - apply (passes_lookup 0 evs k _ Hall Hk).
  - pose proof (passes_take 0 evs (S k) Hall) as Hpre.
    apply andb_true_iff in Hpre. apply Hpre.
Qed.

(** X3: the loop over the transactions of an authenticated block runs to
    its end exactly when every transaction, validated on the block that
    carries the flags of the transactions before it, is gas-valid and the
    running total of the gas, in [uint64] arithmetic, is within the
    ceiling after each of them.  It then hands on the sum of the gas and
    the subsidy plus the fees, and leaves one flag per transaction. *)
Theorem loop_runs_to_its_end_iff (b : bc.Block) (block : types.Block) (tmp : list Z) :
  let evs := validation_steps b (bc.Transactions b) 0 [] in
  let loop := txLoop (bc.Transactions b) 0 0 (u64 (BlockSubsidy (bc.Height b)))
                     (loop_start b block tmp) in
  ((exists g c st, loop = (Next (g, c), st)) <->
   forallb gas_valid evs && within_ceiling 0 evs = true) /\
  (forall g c st,
     loop = (Next (g, c), st) ->
     g = u64 (gas evs) /\
     c = u64 (BlockSubsidy (bc.Height b) + fees evs) /\
     st = validated_state b block tmp evs /\
     length (flags evs) = length (bc.Transactions b)).
Proof.
  intros evs loop.
  assert (Hflags : length (flags evs) = length (bc.Transactions b)).
  { unfold evs. rewrite flags_length_ValidateTx
      by apply validation_steps_are_ValidateTx.
    apply validation_steps_length. }
  pose proof (loop_closed_form b block tmp) as Hcf.
  cbv zeta in Hcf. fold evs in Hcf. fold loop in Hcf.
  destruct Hcf as [(Hall & Hrun) | (k & tx & gasStatus & err & Hk & Hpre & Hcase)].
  - split.
    + split; [intros _; exact Hall | intros _; eauto].
    + intros g c st Hnext. rewrite Hrun in Hnext. injection Hnext as <- <- <-.
      auto.
  - assert (Hdone : exists o st, loop = (Done o, st))
      by (destruct Hcase as [(_ & ->) | (_ & _ & ->)]; eauto).
    destruct Hdone as (o & st' & Hdone). split.
    + split.
      * intros (g & c & st & Hnext). rewrite Hdone in Hnext. discriminate.
      * intros Hall.
        destruct (passes_never_stops evs k tx gasStatus err Hall Hk) as [Hv Hc].
        destruct Hcase as [(Hinv & _) | (_ & Hceil & _)]; congruence.
    + intros g c st Hnext. rewrite Hdone in Hnext. discriminate.
Qed.

(** X4: a run that does not authenticate the proposer, because the header
    is refused, the key does not decode or the signature does not verify,
    returns an error, leaves the block exactly as it was, and validates no
    transaction. *)
Theorem unauthenticated_run_leaves_the_block_untouched (b : bc.Block)
    (parent : state.BlockNode) (block : types.Block)
    (authoritys : gmap string string) (position : Z) :
  (forall tmp, ~ ProposerAuthenticated b parent block authoritys tmp) ->
  let r := ValidateBlock b parent block authoritys position in
  (exists e, fst r = Returned (Some e)) /\
  blk (snd r) = b /\
  Forall (fun ev => is_ValidateTx ev = false /\ is_later_stage ev = false)
         (calls (snd r)).
Proof.
  intros Hnot r. unfold r.
  destruct (ValidateBlock_cases b parent block authoritys position)
    as [(e & _ & ->) | [(tmp & e & _ & _ & ->) | [(tmp & _ & _ & _ & ->)
       | (tmp & Hauth & _)]]].
  - split; [eauto |]. split; [reflexivity | constructor].
  - split; [eauto |]. split; [reflexivity | constructor].
  - split; [eauto |]. split; [reflexivity |].
    constructor; [split; reflexivity | constructor].
  - destruct (Hnot tmp Hauth).
Qed.

(** X5: a run that authenticates the proposer leaves the block with a
    status of version 1 that holds the flags of the first [k] validation
    steps, for some [k] up to the number of transactions, and changes
    nothing else of the block; it holds the flags of all of them when every
    step passes. *)
Theorem authenticated_run_leaves_the_first_flags (b : bc.Block)
    (parent : state.BlockNode) (block : types.Block)
    (authoritys : gmap string string) (position : Z) (tmp : list Z) :
  ProposerAuthenticated b parent block authoritys tmp ->
  let evs := validation_steps b (bc.Transactions b) 0 [] in
  let r := ValidateBlock b parent block authoritys position in
  exists k,
    (k <= length (bc.Transactions b))%nat /\
    blk (snd r) =
      bc.set_TransactionStatus b (bc.TransactionStatus.mk 1 (flags (take k evs))) /\
    length (flags (take k evs)) = k /\
    (forallb gas_valid evs && within_ceiling 0 evs = true ->
     k = length (bc.Transactions b)).
Proof.
  intros Hauth evs r. unfold r.
  rewrite (ValidateBlock_enters _ _ _ _ _ _ Hauth).
  assert (Hlen : length evs = length (bc.Transactions b))
    by apply validation_steps_length.
  pose proof (loop_closed_form b block tmp) as Hcf.
  cbv zeta in Hcf. fold evs in Hcf.
  destruct Hcf as [(Hall & Hrun) | (k & tx & gasStatus & err & Hk & Hpre & Hcase)].
  - exists (length (bc.Transactions b)).
    rewrite (run_bind_Next _ _ _ _ _ Hrun). cbn [snd].
    erewrite tail_keeps_block by reflexivity.
    rewrite take_ge by lia.
    split; [lia |]. split; [reflexivity |].
    split; [| reflexivity].
    unfold evs. rewrite flags_length_ValidateTx
      by apply validation_steps_are_ValidateTx.
    apply validation_steps_length.
  - assert (Hlt : (k < length (bc.Transactions b))%nat)
      by (rewrite <- Hlen; apply (lookup_lt_Some _ _ _ Hk)).
    destruct Hcase as [(Hinv & Hrun) | (Hval & Hceil & Hrun)];
      rewrite (run_bind_Done _ _ _ _ _ Hrun); cbn [snd blk validated_state].
    + exists k. split; [lia |]. split; [reflexivity |].
      split; [apply validation_steps_flags_take; lia |].
      intros Hall.
      destruct (passes_never_stops evs k tx gasStatus err Hall Hk). congruence.
    + exists (S k). split; [lia |]. split; [reflexivity |].
      split; [apply validation_steps_flags_take; lia |].
      intros Hall.
      destruct (passes_never_stops evs k tx gasStatus err Hall Hk). congruence.
Qed.

(** What a run that returned [nil] went through. *)
Lemma accepted_run_cases (b : bc.Block) (parent : state.BlockNode)
    (block : types.Block) (authoritys : gmap string string) (position : Z) :
  fst (ValidateBlock b parent block authoritys position) = Returned None ->
  all_checks_pass b parent block authoritys
  \/ (Wrapf_nil = None /\
      (exists tmp, ProposerAuthenticated b parent block authoritys tmp) /\
      invalid_without_error b).
Proof.
  unfold all_checks_pass, invalid_without_error. cbv zeta.
  set (evs := validation_steps b (bc.Transactions b) 0 []).
  intros Hacc.
  destruct (ValidateBlock_cases b parent block authoritys position)
    as [(e & _ & Hrun) | [(tmp & e & _ & _ & Hrun) | [(tmp & _ & _ & _ & Hrun)
       | (tmp & Hauth & Hrun)]]];
    rewrite Hrun in Hacc; try discriminate.
  pose proof (loop_closed_form b block tmp) as Hcf.
  cbv zeta in Hcf. fold evs in Hcf.
  destruct Hcf as [(Hall & Hloop) | (k & tx & gasStatus & err & Hk & Hpre & Hcase)].
  - left. rewrite (run_bind_Next _ _ _ _ _ Hloop) in Hacc. cbn [snd] in Hacc.
    split; [eauto |]. split; [exact Hall |].
    pose proof (tail_cases b block tmp evs) as Htail. cbv zeta in Htail.
    destruct Htail as [(Hne & Ht) | (Hcoin & Htail)].
    { rewrite Ht in Hacc. cbn [fst] in Hacc. congruence. }
    split; [exact Hcoin |].
    destruct Htail as [(h & e & _ & Ht) | [(h & _ & _ & Ht) | (Hroot & Htail)]];
      try (rewrite Ht in Hacc; discriminate).
    split; [exact Hroot |].
    destruct Htail as [(h & e & _ & Ht) | [(h & _ & _ & Ht) | (Hstatus & _)]];
      try (rewrite Ht in Hacc; discriminate).
    exact Hstatus.
  - right. destruct Hcase as [(Hinv & Hloop) | (_ & _ & Hloop)];
      rewrite (run_bind_Done _ _ _ _ _ Hloop) in Hacc; [| discriminate].
    cbn [fst] in Hacc. destruct err as [e |]; [discriminate |].
    unfold Wrapf in Hacc. injection Hacc as Hnil.
    split; [exact Hnil |]. split; [eauto |].
    exists k, tx, gasStatus. auto.
Qed.

(** X6: [ValidateBlock] returns [nil] exactly when every check of the
    pipeline passes: the header is accepted, the registered key decodes
    and the signature verifies under it, every transaction is gas-valid
    and the gas stays within the ceiling, the coinbase check accepts the
    subsidy plus the fees, and the two merkle roots are computed without
    error and agree with the header.  There is one other way, open only
    if [errors.Wrapf] turns a [nil] error into [nil]: a transaction that
    is reported as not gas-valid without any error ends the run with
    [nil], the coinbase and the merkle roots being left unchecked. *)
Theorem block_accepted_iff (b : bc.Block) (parent : state.BlockNode)
    (block : types.Block) (authoritys : gmap string string) (position : Z) :
  fst (ValidateBlock b parent block authoritys position) = Returned None <->
  all_checks_pass b parent block authoritys
  \/ (Wrapf_nil = None /\
      (exists tmp, ProposerAuthenticated b parent block authoritys tmp) /\
      invalid_without_error b).
Proof.
  split; [apply accepted_run_cases |].
  unfold all_checks_pass, invalid_without_error. cbv zeta.
  set (evs := validation_steps b (bc.Transactions b) 0 []).
  intros [(Hauth & Hall & Hcoin & Hroot & Hstatus)
         | (Hnil & [tmp Hauth] & (k & tx & gasStatus & Hk & Hinv & Hpre))].
  + destruct Hauth as [tmp Hauth].
    rewrite (ValidateBlock_enters _ _ _ _ _ _ Hauth).
    pose proof (loop_closed_form b block tmp) as Hcf.
    cbv zeta in Hcf. fold evs in Hcf.
    destruct Hcf as [(_ & Hloop) | (k & tx & gasStatus & err & Hk & _ & Hcase)].
    * rewrite (run_bind_Next _ _ _ _ _ Hloop). cbn [snd].
      pose proof (tail_cases b block tmp evs) as Htail. cbv zeta in Htail.
      destruct Htail as [(Hne & _) | (_ & Htail)]; [congruence |].
      destruct Htail as [(h & e & Hr & _) | [(h & Hr & Hne & _) | (_ & Htail)]];
        [congruence | congruence |].
      destruct Htail as [(h & e & Hs & _) | [(h & Hs & Hne & _) | (_ & ->)]];
        [congruence | congruence | reflexivity].
    * destruct (passes_never_stops evs k tx gasStatus err Hall Hk) as [Hv Hc].
      destruct Hcase as [(Hinv & _) | (_ & Hceil & _)]; congruence.
  + rewrite (ValidateBlock_enters _ _ _ _ _ _ Hauth).
    pose proof (loop_closed_form b block tmp) as Hcf.
    cbv zeta in Hcf. fold evs in Hcf.
    destruct Hcf as [(Hall & _) | (k' & tx' & gs' & err' & Hk' & Hpre' & Hcase)].
    * destruct (passes_never_stops evs k tx gasStatus None Hall Hk). congruence.
    * assert (k' = k) as ->.
      { destruct (Nat.lt_trichotomy k' k) as [Hlt | [Heq | Hgt]]; [| exact Heq |].
        - destruct (no_stop_before 0 evs k k' _ Hpre Hlt Hk') as [Hv Hc].
          cbn [gas_valid] in Hv.
          destruct Hcase as [(Hinv' & _) | (_ & Hceil & _)]; congruence.
        - destruct (no_stop_before 0 evs k' k _ Hpre' Hgt Hk) as [Hv _].
          cbn [gas_valid] in Hv. congruence. }
      rewrite Hk in Hk'. injection Hk' as <- <- <-.
      destruct Hcase as [(_ & Hloop) | (Hval & _)]; [| congruence].
      rewrite (run_bind_Done _ _ _ _ _ Hloop). cbn [fst]. unfold Wrapf.
      rewrite Hnil. reflexivity.
Qed.

End RunProperties.

(** ** The steps, the key and the gas *)

Section Steps.
Context `{Collaborators}.

(** The steps of an authenticated run: the signature check, the first
    validation steps and, after all of them only, the later stages. *)
Lemma authenticated_run_steps b parent block authoritys position tmp :
  ProposerAuthenticated b parent block authoritys tmp ->
  let evs := validation_steps b (bc.Transactions b) 0 [] in
  let c := u64 (BlockSubsidy (bc.Height b) + fees evs) in
  exists k later,
    calls (snd (ValidateBlock b parent block authoritys position)) =
      EvVerify (copy_xpub tmp) (types.MarshalText block)
               (bc.GetSign (bc.GetProof b)) true
        :: take k evs ++ later /\
    (later = [] \/
     (take k evs = evs /\
      (later = [EvCheckCoinbaseAmount c]
       \/ later = [EvCheckCoinbaseAmount c; EvTxMerkleRoot (bc.Transactions b)]
       \/ later = [EvCheckCoinbaseAmount c; EvTxMerkleRoot (bc.Transactions b);
                   EvTxStatusMerkleRoot (flags evs)]))).
Proof.
  intros Hauth evs c.
  rewrite (ValidateBlock_enters _ _ _ _ _ _ Hauth).
  pose proof (loop_closed_form b block tmp) as Hcf.
  cbv zeta in Hcf. fold evs in Hcf.
  destruct Hcf as [(_ & Hloop) | (k & tx & gasStatus & err & _ & _ & Hcase)].
  - rewrite (run_bind_Next _ _ _ _ _ Hloop). cbn [snd].
    exists (length evs). rewrite firstn_all.
    pose proof (tail_cases b block tmp evs) as Htail. cbv zeta in Htail.
    destruct Htail as [(_ & ->) | (_ & Htail)].
    { eexists. split; [reflexivity |]. right. split; [reflexivity |]. auto. }
    destruct Htail as [(h & e & _ & ->) | [(h & _ & _ & ->) | (_ & Htail)]].
    { eexists. split; [reflexivity |]. right. split; [reflexivity |]. auto. }
    { eexists. split; [reflexivity |]. right. split; [reflexivity |]. auto. }
    destruct Htail as [(h & e & _ & ->) | [(h & _ & _ & ->) | (_ & ->)]];
      (eexists; split; [reflexivity |]; right; split; [reflexivity |]; auto).
  - exists (S k), [].
    assert (Hcalls : calls (snd (run (sums <- txLoop (bc.Transactions b) 0 0
                                        (u64 (BlockSubsidy (bc.Height b))) ;;
                                      ValidateBlock_tail (snd sums))
                                     (loop_start b block tmp))) =
                     calls (validated_state b block tmp (take (S k) evs))).
    { destruct Hcase as [(_ & Hloop) | (_ & _ & Hloop)];
        rewrite (run_bind_Done _ _ _ _ _ Hloop); reflexivity. }
    rewrite Hcalls, app_nil_r. split; [reflexivity | left; reflexivity].
Qed.

(** X7: the steps of every run are the first steps of one sequence: the
    signature check, the validation of the transactions in index order,
    each on the block as the earlier ones left it, the coinbase check, the
    merkle root of the transactions and the merkle root of the status.  A
    run never skips a step, never repeats one and never takes them in
    another order; it only stops early. *)
Theorem steps_are_the_first_of_all_steps (b : bc.Block) (parent : state.BlockNode)
    (block : types.Block) (authoritys : gmap string string) (position : Z) :
  calls (snd (ValidateBlock b parent block authoritys position))
    `prefix_of` all_steps b block authoritys.
Proof.
  unfold all_steps. cbv zeta.
  destruct (ValidateBlock_cases b parent block authoritys position)
    as [(e & _ & Hrun) | [(tmp & e & _ & _ & Hrun) | [(tmp & _ & Hk & Hv & Hrun)
       | (tmp & Hauth & _)]]].
  - rewrite Hrun. apply prefix_nil.
  - rewrite Hrun. apply prefix_nil.
  - rewrite Hrun, Hk. cbn [fst snd calls]. rewrite Hv.
    apply prefix_cons, prefix_nil.
  - destruct (authenticated_run_steps b parent block authoritys position tmp Hauth)
      as (k & later & -> & Hlater).
    rewrite <- (ProposerAuthenticated_key _ _ _ _ _ Hauth).
    destruct Hauth as (_ & _ & ->).
    apply prefix_cons.
    set (evs := validation_steps b (bc.Transactions b) 0 []) in *.
    destruct Hlater as [-> | (-> & [-> | [-> | ->]])].
    + rewrite app_nil_r. apply prefix_app_r.
      exists (drop k evs). symmetry. apply take_drop.
    + apply prefix_app. eexists. reflexivity.
    + apply prefix_app. eexists. reflexivity.
    + apply prefix_app. eexists. rewrite app_nil_r. reflexivity.
Qed.

(** X8: [ValidateBlock] panics exactly when it authenticates the proposer,
    every validation step passes and the first transaction has no result
    identifier: [checkCoinbaseAmount] then indexes an empty slice.  On
    blocks whose pointers are set it panics nowhere else. *)
Theorem panics_iff_coinbase_has_no_result (b : bc.Block) (parent : state.BlockNode)
    (block : types.Block) (authoritys : gmap string string) (position : Z)
    (reason : string) :
  fst (ValidateBlock b parent block authoritys position) = Panicked reason <->
  (exists tmp, ProposerAuthenticated b parent block authoritys tmp) /\
  (let evs := validation_steps b (bc.Transactions b) 0 [] in
   forallb gas_valid evs && within_ceiling 0 evs = true) /\
  (exists tx rest, bc.Transactions b = tx :: rest /\ bc.ResultIds tx = []) /\
  reason = "index out of range".
Proof.
  cbv zeta. set (evs := validation_steps b (bc.Transactions b) 0 []).
  split.
  - intros Hpanic.
    destruct (ValidateBlock_cases b parent block authoritys position)
      as [(e & _ & Hrun) | [(tmp & e & _ & _ & Hrun) | [(tmp & _ & _ & _ & Hrun)
         | (tmp & Hauth & Hrun)]]];
      rewrite Hrun in Hpanic; try discriminate.
    pose proof (loop_closed_form b block tmp) as Hcf.
    cbv zeta in Hcf. fold evs in Hcf.
    destruct Hcf as [(Hall & Hloop) | (k & tx & gasStatus & err & _ & _ & Hcase)].
    + rewrite (run_bind_Next _ _ _ _ _ Hloop) in Hpanic. cbn [snd] in Hpanic.
      split; [eauto |]. split; [exact Hall |].
      pose proof (tail_cases b block tmp evs) as Htail. cbv zeta in Htail.
      destruct Htail as [(_ & Ht) | (_ & Htail)].
      * rewrite Ht in Hpanic. cbn [fst] in Hpanic.
        unfold checkCoinbaseAmount in Hpanic.
        destruct (bc.Transactions b) as [| tx rest]; [discriminate |].
        destruct (bc.ResultIds tx) as [| id ids] eqn:Hids.
        { injection Hpanic as <-. split; [exists tx, rest; auto | reflexivity]. }
        destruct (Output tx id) as [e | output]; [discriminate |].
        destruct (negb _); discriminate.
      * destruct Htail as [(h & e & _ & Ht) | [(h & _ & _ & Ht) | (_ & Htail)]];
          try (rewrite Ht in Hpanic; discriminate).
        destruct Htail as [(h & e & _ & Ht) | [(h & _ & _ & Ht) | (_ & Ht)]];
          rewrite Ht in Hpanic; discriminate.
    + destruct Hcase as [(_ & Hloop) | (_ & _ & Hloop)];
        rewrite (run_bind_Done _ _ _ _ _ Hloop) in Hpanic; discriminate.
  - intros ([tmp Hauth] & Hall & (tx & rest & Htxs & Hids) & ->).
    rewrite (ValidateBlock_enters _ _ _ _ _ _ Hauth).
    pose proof (loop_closed_form b block tmp) as Hcf.
    cbv zeta in Hcf. fold evs in Hcf.
    destruct Hcf as [(_ & Hloop) | (k & tx' & gasStatus & err & Hk & _ & Hcase)].
    + rewrite (run_bind_Next _ _ _ _ _ Hloop). cbn [snd].
      rewrite tail_run. cbv zeta.
      change (checkCoinbaseAmount (blk (validated_state b block tmp evs)))
        with (checkCoinbaseAmount b).
      unfold checkCoinbaseAmount. rewrite Htxs, Hids. reflexivity.
    + destruct (passes_never_stops evs k tx' gasStatus err Hall Hk) as [Hv Hc].
      destruct Hcase as [(Hinv & _) | (_ & Hceil & _)]; congruence.
Qed.

(** X9: with an accepted header and a registered key, the run ends
    without any step exactly when the key is not well-formed hexadecimal;
    it then returns an error of [encoding/hex], odd length or invalid
    byte, and leaves the block as it was.  A well-formed key of whatever
    length goes on to the signature check. *)
Theorem registered_key_is_refused_iff_malformed (b : bc.Block)
    (parent : state.BlockNode) (block : types.Block)
    (authoritys : gmap string string) (position : Z) (key : string) :
  ValidateBlockHeader b parent = None ->
  authoritys !! bc.GetControlProgram (bc.GetProof b) = Some key ->
  let r := ValidateBlock b parent block authoritys position in
  (calls (snd r) = [] <-> hex.well_formed key = false) /\
  (hex.well_formed key = false ->
   exists e,
     (e = hex_ErrLength \/ exists c, e = hex_InvalidByteError c) /\
     r = (Returned (Some e), mkSt b [])).
Proof.
  intros Hh Hkey r.
  assert (Hbad : hex.well_formed key = false ->
                 exists e,
                   (e = hex_ErrLength \/ exists c, e = hex_InvalidByteError c) /\
                   r = (Returned (Some e), mkSt b []))
    by apply (malformed_key_is_rejected _ _ _ _ _ _ Hh Hkey).
  split; [| exact Hbad]. split.
  - intros Hcalls. destruct (hex.well_formed key) eqn:Hwf; [| reflexivity].
    exfalso. apply DecodeString_ok_iff in Hwf.
    assert (Hk : proposer_key b authoritys = (fst (hex.DecodeString key), None)).
    { unfold proposer_key. rewrite Hkey.
      change (default "" (Some key)) with key.
      destruct (hex.DecodeString key) as [tmp err]. cbn in *. congruence. }
    unfold r in Hcalls.
    destruct (ValidateBlock_cases b parent block authoritys position)
      as [(e & He & _) | [(tmp & e & _ & Hk' & _) | [(tmp & _ & _ & _ & Hrun)
         | (tmp & Hauth & _)]]].
    + congruence.
    + congruence.
    + rewrite Hrun in Hcalls. discriminate.
    + destruct (authenticated_run_steps b parent block authoritys position tmp Hauth)
        as (k & later & Hsteps & _).
      rewrite Hsteps in Hcalls. discriminate.
  - intros Hwf. destruct (Hbad Hwf) as (e & _ & Hrun). rewrite Hrun. reflexivity.
Qed.

Lemma copy_xpub_length tmp : length (copy_xpub tmp) = 64%nat.
Proof.
  unfold copy_xpub. rewrite length_app, length_take, repeat_length. lia.
Qed.

(** X10: the registered key counts only through the 64 bytes that are
    copied from it: the signature check always gets a key of 64 bytes,
    and two registries whose keys for the block's control program decode
    to bytes with the same first 64, short keys being filled with zeros,
    give the same run.  No key is refused for its length. *)
Theorem key_counts_through_its_64_bytes (b : bc.Block) (parent : state.BlockNode)
    (block : types.Block) (authoritys authoritys' : gmap string string)
    (position : Z) (tmp tmp' : list Z) :
  proposer_key b authoritys = (tmp, None) ->
  proposer_key b authoritys' = (tmp', None) ->
  copy_xpub tmp = copy_xpub tmp' ->
  length (copy_xpub tmp) = 64%nat /\
  ValidateBlock b parent block authoritys position =
  ValidateBlock b parent block authoritys' position.
Proof.
  intros Hk Hk' Heq. split; [apply copy_xpub_length |].
  destruct (ValidateBlockHeader b parent) as [e |] eqn:Hh.
  { rewrite !(ValidateBlock_header_fails _ _ _ _ _ _ Hh). reflexivity. }
  destruct (Verify (copy_xpub tmp) (types.MarshalText block)
              (bc.GetSign (bc.GetProof b))) eqn:Hv.
  - assert (Hauth : ProposerAuthenticated b parent block authoritys tmp)
      by (split; [exact Hh | split; [exact Hk | exact Hv]]).
    assert (Hauth' : ProposerAuthenticated b parent block authoritys' tmp')
      by (split; [exact Hh | split; [exact Hk' | rewrite <- Heq; exact Hv]]).
    rewrite (ValidateBlock_enters _ _ _ _ _ _ Hauth).
    rewrite (ValidateBlock_enters _ _ _ _ _ _ Hauth').
    unfold loop_start. rewrite Heq. reflexivity.
  - rewrite (ValidateBlock_signature_fails _ _ _ _ _ _ Hh Hk Hv).
    rewrite Heq in Hv.
    rewrite (ValidateBlock_signature_fails _ _ _ _ _ _ Hh Hk' Hv).
    rewrite Heq. reflexivity.
Qed.

(** X11: the status that the block carries when it is handed over plays no
    part: with any other status in its place the run returns the same
    error and makes the same steps; it leaves the same block when the
    proposer is authenticated, and the block as handed over otherwise. *)
Theorem former_status_plays_no_part (b : bc.Block) (parent : state.BlockNode)
    (block : types.Block) (authoritys : gmap string string) (position : Z)
    (ts : bc.TransactionStatus.t) :
  let r := ValidateBlock b parent block authoritys position in
  let r' := ValidateBlock (bc.set_TransactionStatus b ts) parent block authoritys
              position in
  fst r' = fst r /\
  calls (snd r') = calls (snd r) /\
  ((exists tmp, ProposerAuthenticated b parent block authoritys tmp) ->
   blk (snd r') = blk (snd r)) /\
  ((forall tmp, ~ ProposerAuthenticated b parent block authoritys tmp) ->
   blk (snd r') = bc.set_TransactionStatus b ts /\ blk (snd r) = b).
Proof.
  intros r r'. unfold r, r'.
  set (b' := bc.set_TransactionStatus b ts).
  destruct (ValidateBlock_cases b parent block authoritys position)
    as [(e & Hh & Hrun) | [(tmp & e & Hh & Hk & Hrun) | [(tmp & Hh & Hk & Hv & Hrun)
       | (tmp & Hauth & _)]]].
  - rewrite Hrun.
    rewrite (ValidateBlock_header_fails b' parent block authoritys position e Hh).
    split; [reflexivity |]. split; [reflexivity |].
    split; [| intros _; split; reflexivity].
    intros [tmp (Hh' & _)]. congruence.
  - rewrite Hrun.
    rewrite (ValidateBlock_key_fails b' parent block authoritys position tmp e Hh Hk).
    split; [reflexivity |]. split; [reflexivity |].
    split; [| intros _; split; reflexivity].
    intros [tmp' (_ & Hk' & _)]. congruence.
  - rewrite Hrun.
    rewrite (ValidateBlock_signature_fails b' parent block authoritys position tmp
               Hh Hk Hv).
    split; [reflexivity |]. split; [reflexivity |].
    split; [| intros _; split; reflexivity].
    intros [tmp' (_ & Hk' & Hv')].
    assert (tmp' = tmp) as -> by congruence. congruence.
  - unfold b'.
    rewrite (ValidateBlock_ignores_former_status _ _ _ _ _ _ _ Hauth).
    split; [reflexivity |]. split; [reflexivity |]. split; [reflexivity |].
    intros Hnot. destruct (Hnot tmp Hauth).
Qed.

Lemma total_reported_gas_nonneg evs :
  Forall (fun ev => 0 <= reported_gas ev < 2 ^ 63) evs -> 0 <= total_reported_gas evs.
Proof.
  induction 1 as [| ev evs Hev _ IH]; cbn [total_reported_gas fold_right]; [lia |].
  fold (total_reported_gas evs). lia.
Qed.

Lemma gas_of_reported ev : 0 <= reported_gas ev < 2 ^ 63 -> gas_of ev = reported_gas ev.
Proof.
  destruct ev; cbn [gas_of reported_gas]; try reflexivity.
  intros Hx. apply u64_no_wrap. unfold two64. lia.
Qed.

Lemma gas_reported evs :
  Forall (fun ev => 0 <= reported_gas ev < 2 ^ 63) evs -> gas evs = total_reported_gas evs.
Proof.
  induction 1 as [| ev evs Hev _ IH]; [reflexivity |].
  cbn [gas total_reported_gas fold_right].
  fold (gas evs). fold (total_reported_gas evs).
  rewrite (gas_of_reported ev Hev), IH. reflexivity.
Qed.

(** With a ceiling and reported gas below [2^63] nothing wraps: the
    running total stays within the ceiling exactly when the plain sum
    does. *)
Lemma within_ceiling_plain evs : forall g,
  0 <= MaxBlockGas < 2 ^ 63 ->
  0 <= g <= MaxBlockGas ->
  Forall (fun ev => 0 <= reported_gas ev < 2 ^ 63) evs ->
  (within_ceiling g evs = true <-> g + total_reported_gas evs <= MaxBlockGas).
Proof.
  induction evs as [| ev evs IH]; intros g Hmax Hg Hevs.
  - cbn. split; [lia | reflexivity].
  - apply Forall_cons in Hevs as [Hev Hevs].
    cbn [within_ceiling total_reported_gas fold_right]. cbv zeta.
    fold (total_reported_gas evs).
    rewrite (gas_of_reported ev Hev).
    rewrite add64_no_wrap by (unfold two64; lia).
    pose proof (total_reported_gas_nonneg evs Hevs) as Hpos.
    destruct (Z.ltb_spec MaxBlockGas (g + reported_gas ev)) as [Hover | Hok]; cbn [negb andb].
    + split; [discriminate | lia].
    + rewrite (IH (g + reported_gas ev) Hmax ltac:(lia) Hevs). lia.
Qed.

(** X12: when the ceiling and every reported gas are non-negative and
    below [2^63], and every transaction is gas-valid, nothing wraps: the
    loop runs to its end exactly when the plain sum of the gas reported
    for the block's transactions is at most [MaxBlockGas], and the total
    it hands on is that sum. *)
Theorem gas_ceiling_is_exact_without_wrap (b : bc.Block) (block : types.Block)
    (tmp : list Z) :
  let evs := validation_steps b (bc.Transactions b) 0 [] in
  let loop := txLoop (bc.Transactions b) 0 0 (u64 (BlockSubsidy (bc.Height b)))
                     (loop_start b block tmp) in
  0 <= MaxBlockGas < 2 ^ 63 ->
  Forall (fun ev => 0 <= reported_gas ev < 2 ^ 63) evs ->
  forallb gas_valid evs = true ->
  ((exists g c st, loop = (Next (g, c), st)) <->
   total_reported_gas evs <= MaxBlockGas) /\
  (forall g c st, loop = (Next (g, c), st) -> g = total_reported_gas evs).
Proof.
  intros evs loop Hmax Hrange Hvalid.
  pose proof (within_ceiling_plain evs 0 Hmax ltac:(lia) Hrange) as Hplain.
  rewrite Z.add_0_l in Hplain.
  pose proof (loop_closed_form b block tmp) as Hcf.
  cbv zeta in Hcf. fold evs in Hcf. fold loop in Hcf.
  destruct Hcf as [(Hall & Hrun) | (k & tx & gasStatus & err & Hk & Hpre & Hcase)].
  - apply andb_true_iff in Hall as [_ Hceil]. apply Hplain in Hceil.
    split.
    + split; [intros _; exact Hceil | intros _; eauto].
    + intros g c st Hnext. rewrite Hrun in Hnext. injection Hnext as <- _ _.
      rewrite (gas_reported evs Hrange). apply u64_no_wrap.
      pose proof (total_reported_gas_nonneg evs Hrange). unfold two64. lia.
  - assert (Hdone : exists o st, loop = (Done o, st))
      by (destruct Hcase as [(_ & ->) | (_ & _ & ->)]; eauto).
    destruct Hdone as (o & st' & Hdone). split.
    + split.
      * intros (g & c & st & Hnext). rewrite Hdone in Hnext. discriminate.
      * intros Hsum. apply Hplain in Hsum.
        assert (Hall : forallb gas_valid evs && within_ceiling 0 evs = true)
          by (rewrite Hvalid, Hsum; reflexivity).
        destruct (passes_never_stops evs k tx gasStatus err Hall Hk) as [Hv Hc].
        destruct Hcase as [(Hinv & _) | (_ & Hceil & _)]; congruence.
    + intros g c st Hnext. rewrite Hdone in Hnext. discriminate.
Qed.

End Steps.

(** ** What an accepted block guarantees *)

Section Guarantees.
Context `{Collaborators}.

(** The step of index [i]: the transaction of index [i], validated on the
    block that carries the flags of the steps before it. *)
Lemma validation_steps_lookup b txs : forall j fl i tx,
  txs !! i = Some tx ->
  let evs := validation_steps b txs j fl in
  let r := ValidateTx tx (bc.set_TransactionStatus b
                            (bc.TransactionStatus.mk 1 (fl ++ take i (flags evs)))) in
  evs !! i = Some (EvValidateTx (j + i) tx (fst r) (snd r)).
Proof.
  induction txs as [| tx0 rest IH]; intros j fl i tx Hi; [discriminate |].
  cbn [validation_steps].
  destruct (ValidateTx tx0 (bc.set_TransactionStatus b (bc.TransactionStatus.mk 1 fl)))
    as [gasStatus err] eqn:Hv.
  destruct i as [| i].
  - injection Hi as <-. cbn [take lookup]. rewrite app_nil_r, Nat.add_0_r, Hv.
    reflexivity.
  - cbn in Hi.
    specialize (IH (S j) (fl ++ [bc.Build_TxVerifyResult (not_nil err)]) i tx Hi).
    cbv zeta in IH. cbn [flags flat_map flag_of app take].
    fold (flags (validation_steps b rest (S j)
                   (fl ++ [bc.Build_TxVerifyResult (not_nil err)]))).
    rewrite <- app_assoc in IH. cbn [app] in IH.
    replace (j + S i)%nat with (S j + i)%nat by lia.
    exact IH.
Qed.

Lemma flags_lookup evs : forall i j tx gasStatus err,
  Forall (fun ev => is_ValidateTx ev = true) evs ->
  evs !! i = Some (EvValidateTx j tx gasStatus err) ->
  flags evs !! i = Some (bc.Build_TxVerifyResult (not_nil err)).
Proof.
  unfold flags.
  induction evs as [| ev evs IH]; intros i j tx gasStatus err Hall Hi; [discriminate |].
  apply Forall_cons in Hall as [Hev Hall].
  destruct ev; try discriminate. cbn [flat_map flag_of app].
  destruct i as [| i].
  - injection Hi as _ _ _ ->. reflexivity.
  - cbn in Hi. cbn [lookup]. exact (IH i j tx gasStatus err Hall Hi).
Qed.

(** X13: a block that [ValidateBlock] accepts has a first transaction whose
    first result is an output of exactly the subsidy of the block's height
    plus the fees of all its transactions, those whose execution failed
    included, in [uint64] arithmetic, which is the plain sum when that sum
    is in range.  The one exception is the run that an invalid
    transaction without error ends with [nil]. *)
Theorem accepted_block_pays_subsidy_plus_fees (b : bc.Block)
    (parent : state.BlockNode) (block : types.Block)
    (authoritys : gmap string string) (position : Z) :
  fst (ValidateBlock b parent block authoritys position) = Returned None ->
  let evs := validation_steps b (bc.Transactions b) 0 [] in
  (Wrapf_nil = None /\ invalid_without_error b)
  \/ (exists tx rest id ids output,
        bc.Transactions b = tx :: rest /\
        bc.ResultIds tx = id :: ids /\
        Output tx id = inr output /\
        bc.Amount (bc.Value (bc.Source output)) =
          u64 (BlockSubsidy (bc.Height b) + fees evs) /\
        (0 <= BlockSubsidy (bc.Height b) + fees evs < two64 ->
         bc.Amount (bc.Value (bc.Source output)) =
           BlockSubsidy (bc.Height b) + fees evs)).
Proof.
  intros Hacc evs.
  destruct (accepted_run_cases _ _ _ _ _ Hacc)
    as [(_ & _ & Hcoin & _) | (Hnil & _ & Hinv)]; [| left; auto].
  right. fold evs in Hcoin. unfold checkCoinbaseAmount in Hcoin.
  destruct (bc.Transactions b) as [| tx rest]; [discriminate |].
  destruct (bc.ResultIds tx) as [| id ids] eqn:Hids; [discriminate |].
  destruct (Output tx id) as [e | output] eqn:Hout; [discriminate |].
  destruct (Z.eqb_spec (bc.Amount (bc.Value (bc.Source output)))
              (u64 (BlockSubsidy (bc.Height b) + fees evs))) as [Heq | Hne];
    cbn [negb] in Hcoin; [| discriminate].
  exists tx, rest, id, ids, output.
  split; [reflexivity |]. split; [exact Hids |]. split; [exact Hout |].
  split; [exact Heq |].
  intros Hrange. rewrite Heq. apply u64_no_wrap, Hrange.
Qed.

(** X14: when every validation step passes, the status left on the block
    has one flag per transaction, and the flag of index [i] tells whether
    the validator returned an error for the transaction of index [i],
    validated on the block that carries the first [i] flags.  A
    transaction whose execution fails is flagged, not refused. *)
Theorem status_records_execution_failures (b : bc.Block)
    (parent : state.BlockNode) (block : types.Block)
    (authoritys : gmap string string) (position : Z) (tmp : list Z) :
  ProposerAuthenticated b parent block authoritys tmp ->
  (let evs := validation_steps b (bc.Transactions b) 0 [] in
   forallb gas_valid evs && within_ceiling 0 evs = true) ->
  exists status,
    bc.TransactionStatus (blk (snd (ValidateBlock b parent block authoritys position)))
      = Some (bc.TransactionStatus.mk 1 status) /\
    length status = length (bc.Transactions b) /\
    forall i tx,
      bc.Transactions b !! i = Some tx ->
      status !! i =
        Some (bc.Build_TxVerifyResult
                (not_nil (snd (ValidateTx tx
                                 (bc.set_TransactionStatus b
                                    (bc.TransactionStatus.mk 1 (take i status))))))).
Proof.
  cbv zeta. set (evs := validation_steps b (bc.Transactions b) 0 []).
  intros Hauth Hall.
  assert (Hev : Forall (fun ev => is_ValidateTx ev = true) evs)
    by apply validation_steps_are_ValidateTx.
  exists (flags evs). split; [| split].
  - rewrite (ValidateBlock_enters _ _ _ _ _ _ Hauth).
    pose proof (loop_closed_form b block tmp) as Hcf.
    cbv zeta in Hcf. fold evs in Hcf.
    destruct Hcf as [(_ & Hloop) | (k & tx & gasStatus & err & Hk & _ & Hcase)].
    + rewrite (run_bind_Next _ _ _ _ _ Hloop). cbn [snd].
      erewrite tail_keeps_block by reflexivity. reflexivity.
    + destruct (passes_never_stops evs k tx gasStatus err Hall Hk) as [Hv Hc].
      destruct Hcase as [(Hinv & _) | (_ & Hceil & _)]; congruence.
  - rewrite (flags_length_ValidateTx evs Hev). apply validation_steps_length.
  - intros i tx Hi.
    pose proof (validation_steps_lookup b (bc.Transactions b) 0 [] i tx Hi) as Hstep.
    cbv zeta in Hstep. fold evs in Hstep. cbn [app] in Hstep.
    apply (flags_lookup evs i _ _ _ _ Hev Hstep).
Qed.

End Guarantees.

(** ** The further statements on the small chain *)

(** The good block's header, an hour later. *)
Lemma X2_witness :
  ValidateBlockHeader (H := Demo2.an_hour_later) Demo.good_block Demo.parent = None.
Proof.
  apply (header_stays_accepted_later Demo.collaborators Demo2.an_hour_later
           Demo.good_block Demo.parent eq_refl).
  - cbn. lia.
  - cbn. lia.
  - reflexivity.
  - reflexivity.
Defined.

(** The block of an unregistered control program is left as it was. *)
Lemma X4_witness :
  blk (snd (ValidateBlock (H := Demo.collaborators) Demo.unregistered_block Demo.parent
              Demo.canonical Demo.registry 0)) = Demo.unregistered_block.
Proof.
  apply (unauthenticated_run_leaves_the_block_untouched (H := Demo.collaborators)
           Demo.unregistered_block Demo.parent Demo.canonical Demo.registry 0).
  intros tmp (_ & Hk & Hv).
  vm_compute in Hk. injection Hk as <-. vm_compute in Hv. discriminate.
Defined.

(** The block stopped by the gas ceiling carries some first flags. *)
Lemma X5_witness :
  exists k,
    (k <= 2)%nat /\
    blk (snd (ValidateBlock (H := Demo.collaborators) Demo.costly_block Demo.parent
                Demo.canonical Demo.registry 0)) =
    bc.set_TransactionStatus Demo.costly_block
      (bc.TransactionStatus.mk 1
         (flags (take k (validation_steps (H := Demo.collaborators) Demo.costly_block
                           (bc.Transactions Demo.costly_block) 0 [])))).
Proof.
  destruct (authenticated_run_leaves_the_first_flags (H := Demo.collaborators)
              Demo.costly_block Demo.parent Demo.canonical Demo.registry 0 [171]
              (Demo_authenticated 2 _))
    as (k & Hk & Hblk & _).
  exists k. split; [exact Hk | exact Hblk].
Defined.

(** A key of three digits ends the run without any step. *)
Lemma X9_witness :
  calls (snd (ValidateBlock (H := Demo.collaborators) Demo.good_block Demo.parent
                Demo.canonical Demo2.malformed_registry 0)) = [].
Proof.
  apply (proj1 (registered_key_is_refused_iff_malformed (H := Demo.collaborators)
                  Demo.good_block Demo.parent Demo.canonical
                  Demo2.malformed_registry 0 "abc" eq_refl eq_refl)).
  reflexivity.
Defined.

(** The key "ab" and the key "ab00" give the same run. *)
Lemma X10_witness :
  ValidateBlock (H := Demo.collaborators) Demo.good_block Demo.parent Demo.canonical
    Demo.registry 0 =
  ValidateBlock (H := Demo.collaborators) Demo.good_block Demo.parent Demo.canonical
    Demo2.padded_registry 0.
Proof.
  apply (key_counts_through_its_64_bytes (H := Demo.collaborators)
           Demo.good_block Demo.parent Demo.canonical Demo.registry
           Demo2.padded_registry 0 [171] [171; 0] eq_refl eq_refl eq_refl).
Defined.

(** Three transactions of 40 of gas each stay below the ceiling. *)
Lemma X12_witness :
  exists g c st,
    txLoop (H := Demo.collaborators) (bc.Transactions Demo2.mixed_block) 0 0
      (u64 (BlockSubsidy (Collaborators := Demo.collaborators)
              (bc.Height Demo2.mixed_block)))
      (loop_start Demo2.mixed_block Demo.canonical [171])
    = (Next (g, c), st).
Proof.
  apply (proj1 (gas_ceiling_is_exact_without_wrap (H := Demo.collaborators)
                  Demo2.mixed_block Demo.canonical [171]
                  ltac:(cbn; lia)
                  ltac:(repeat constructor; cbn; lia)
                  eq_refl)).
  vm_compute. discriminate.
Defined.

(** The good block is accepted, and its coinbase pays the subsidy. *)
Lemma X13_witness :
  (Wrapf_nil (Collaborators := Demo.collaborators) = None /\
   invalid_without_error (H := Demo.collaborators) Demo.good_block)
  \/ (exists tx rest id ids output,
        bc.Transactions Demo.good_block = tx :: rest /\
        bc.ResultIds tx = id :: ids /\
        Output (Collaborators := Demo.collaborators) tx id = inr output /\
        bc.Amount (bc.Value (bc.Source output)) = 500 /\
        (0 <= 500 < two64 -> bc.Amount (bc.Value (bc.Source output)) = 500)).
Proof.
  exact (accepted_block_pays_subsidy_plus_fees (H := Demo.collaborators)
           Demo.good_block Demo.parent Demo.canonical Demo.registry 0 eq_refl).
Defined.

(** The block with a failed execution in the middle gets three flags. *)
Lemma X14_witness :
  exists status,
    bc.TransactionStatus
      (blk (snd (ValidateBlock (H := Demo.collaborators) Demo2.mixed_block Demo.parent
                   Demo.canonical Demo.registry 0)))
      = Some (bc.TransactionStatus.mk 1 status) /\
    length status = 3%nat.
Proof.
  destruct (status_records_execution_failures (H := Demo.collaborators)
              Demo2.mixed_block Demo.parent Demo.canonical Demo.registry 0 [171]
              (Demo_authenticated 3 _) eq_refl)
    as (status & Hstatus & Hlen & _).
  exists status. split; [exact Hstatus | exact Hlen].
Defined.

(** ** The coinbase check, and two runs under two clocks *)

Section CoinbaseStage.
Context `{Collaborators}.

(** The run of an authenticated block whose transactions all pass goes on
    with the coinbase check, on the subsidy plus the fees of its steps. *)
Lemma run_reaches_coinbase_check b parent block authoritys position tmp :
  let evs := validation_steps b (bc.Transactions b) 0 [] in
  ProposerAuthenticated b parent block authoritys tmp ->
  forallb gas_valid evs && within_ceiling 0 evs = true ->
  ValidateBlock b parent block authoritys position =
    run (ValidateBlock_tail (u64 (BlockSubsidy (bc.Height b) + fees evs)))
        (validated_state b block tmp evs).
Proof.
  intros evs Hauth Hall.
  destruct (loop_closed_form b block tmp)
    as [[_ Hloop] | (k & tx & gasStatus & err & Hk & _ & Hcase)].
  - cbv zeta in Hloop. fold evs in Hloop.
    apply (ValidateBlock_after_loop _ _ _ _ position _ _ _ _ Hauth Hloop).
  - cbv zeta in Hk, Hcase. fold evs in Hk, Hcase.
    destruct (passes_never_stops _ _ _ _ _ Hall Hk) as [Hvalid Hunder].
    destruct Hcase as [[Hinvalid _] | (_ & Hover & _)]; congruence.
Qed.

(** A run that went on to the merkle roots did not end at the coinbase
    check. *)
Lemma last_is_not_the_coinbase_check cs c later ev c' :
  (forall a, ev <> EvCheckCoinbaseAmount a) ->
  last (cs ++ EvCheckCoinbaseAmount c :: later ++ [ev]) <>
    Some (EvCheckCoinbaseAmount c').
Proof.
  intros Hev.
  change (cs ++ EvCheckCoinbaseAmount c :: later ++ [ev])
    with (cs ++ (EvCheckCoinbaseAmount c :: later) ++ [ev]).
  rewrite app_assoc, last_snoc. intros [= Heq]. exact (Hev _ Heq).
Qed.

(** C3, as amended: for an authenticated block whose transactions are all
    gas-valid and within the gas ceiling, the coinbase check is made on
    the subsidy of the block's height plus the fees that the validator
    reports for its transactions, in [uint64] arithmetic.  [ValidateBlock]
    ends at that check with the wrong-coinbase error in exactly two
    sub-cases: the block has no transaction ("block is empty"), or the
    amount of the first result of the first transaction is not that total
    ("dismatch output amount").  With the amount equal to the total the
    run does not end at the coinbase check.  The only other error the check
    returns is the one that the lookup of the output hands up, unchanged. *)
Theorem C3_coinbase_check_decides (b : bc.Block) (parent : state.BlockNode)
    (block : types.Block) (authoritys : gmap string string) (position : Z)
    (tmp : list Z) :
  let evs := validation_steps b (bc.Transactions b) 0 [] in
  let total := u64 (BlockSubsidy (bc.Height b) + fees evs) in
  let r := ValidateBlock b parent block authoritys position in
  ProposerAuthenticated b parent block authoritys tmp ->
  forallb gas_valid evs && within_ceiling 0 evs = true ->
  (bc.Transactions b = [] ->
   stopped_by_coinbase_check r (Wrap ErrWrongCoinbaseTransaction "block is empty"))
  /\ (forall tx rest id ids output,
        bc.Transactions b = tx :: rest ->
        bc.ResultIds tx = id :: ids ->
        Output tx id = inr output ->
        (bc.Amount (bc.Value (bc.Source output)) <> total ->
         stopped_by_coinbase_check r
           (Wrap ErrWrongCoinbaseTransaction "dismatch output amount"))
        /\ (bc.Amount (bc.Value (bc.Source output)) = total ->
            forall e, ~ stopped_by_coinbase_check r e))
  /\ (forall e,
        stopped_by_coinbase_check r e ->
        calls (snd r) =
          calls (validated_state b block tmp evs) ++ [EvCheckCoinbaseAmount total]
        /\ ((bc.Transactions b = [] /\
             e = Wrap ErrWrongCoinbaseTransaction "block is empty")
            \/ (exists tx id output,
                  head (bc.Transactions b) = Some tx /\
                  head (bc.ResultIds tx) = Some id /\
                  Output tx id = inr output /\
                  bc.Amount (bc.Value (bc.Source output)) <> total /\
                  e = Wrap ErrWrongCoinbaseTransaction "dismatch output amount")
            \/ (exists tx id,
                  head (bc.Transactions b) = Some tx /\
                  head (bc.ResultIds tx) = Some id /\
                  Output tx id = inl e))).
Proof.
  intros evs total r Hauth Hall.
  assert (Hr : r = run (ValidateBlock_tail total) (validated_state b block tmp evs))
    by exact (run_reaches_coinbase_check b parent block authoritys position tmp
                Hauth Hall).
  assert (Hstop : forall o,
            checkCoinbaseAmount b total = o -> o <> Returned None ->
            r = (o, mkSt (blk (validated_state b block tmp evs))
                         (calls (validated_state b block tmp evs)
                          ++ [EvCheckCoinbaseAmount total]))).
  { intros o Ho Hne. rewrite Hr, tail_run. cbv zeta.
    change (checkCoinbaseAmount (blk (validated_state b block tmp evs)) total)
      with (checkCoinbaseAmount b total).
    rewrite Ho. destruct o as [[e |] |]; [reflexivity | congruence | reflexivity]. }
  assert (Hon : checkCoinbaseAmount b total = Returned None ->
            forall e, ~ stopped_by_coinbase_check r e).
  { intros Hpass e [_ [c' Hlast]]. revert Hlast.
    destruct (tail_cases b block tmp evs) as [[Hne _] | [_ Hcases]];
      [contradiction |].
    cbv zeta in Hcases. fold total in Hcases. rewrite <- Hr in Hcases.
    destruct Hcases as [(h & e' & _ & ->) | [(h & _ & _ & ->)
      | (_ & [(h & e' & _ & ->) | [(h & _ & _ & ->) | (_ & ->)]])]];
      cbn [snd calls];
      first [ apply (last_is_not_the_coinbase_check _ _ [] _ c')
            | apply (last_is_not_the_coinbase_check _ _
                       [EvTxMerkleRoot (bc.Transactions b)] _ c') ];
      discriminate. }
  split; [| split].
  - intros Hnil.
    assert (Ho : checkCoinbaseAmount b total =
              Returned (Some (Wrap ErrWrongCoinbaseTransaction "block is empty")))
      by (unfold checkCoinbaseAmount; rewrite Hnil; reflexivity).
    rewrite (Hstop _ Ho ltac:(discriminate)). split; [reflexivity |].
    exists total. cbn [snd calls]. apply last_snoc.
  - intros tx rest id ids output Htx Hids Hout. split.
    + intros Hne.
      assert (Ho : checkCoinbaseAmount b total =
                Returned (Some (Wrap ErrWrongCoinbaseTransaction
                                  "dismatch output amount"))).
      { unfold checkCoinbaseAmount. rewrite Htx, Hids, Hout.
        destruct (Z.eqb_spec (bc.Amount (bc.Value (bc.Source output))) total);
          [contradiction | reflexivity]. }
      rewrite (Hstop _ Ho ltac:(discriminate)). split; [reflexivity |].
      exists total. cbn [snd calls]. apply last_snoc.
    + intros Heq. apply Hon.
      unfold checkCoinbaseAmount. rewrite Htx, Hids, Hout.
      destruct (Z.eqb_spec (bc.Amount (bc.Value (bc.Source output))) total);
        [reflexivity | contradiction].
  - intros e Hstopped.
    destruct (checkCoinbaseAmount b total) as [[e' |] |] eqn:Ho.
    + pose proof (Hstop _ eq_refl ltac:(discriminate)) as Hrun.
      destruct Hstopped as [Hfst _]. rewrite Hrun in Hfst |- *.
      cbn [fst] in Hfst. injection Hfst as <-.
      split; [reflexivity |].
      exact (checkCoinbaseAmount_errors _ _ _ Ho).
    + destruct (Hon eq_refl e Hstopped).
    + pose proof (Hstop _ eq_refl ltac:(discriminate)) as Hrun.
      destruct Hstopped as [Hfst _]. rewrite Hrun in Hfst. discriminate Hfst.
Qed.

End CoinbaseStage.

(** The validator refuses the second transaction of a block that is not
    empty and whose coinbase pays what is due, with the wrong-coinbase
    error: the run fails with that kind outside the two sub-cases. *)
Lemma C3_counterexample :
  ~ wrong_coinbase_in_exactly_two_cases (H := Demo3.strict) Demo.invalid_block
      Demo.parent Demo.canonical Demo.registry 0.
Proof.
  intros [Hkind _].
  destruct Hkind as [Hnil | (tx & rest & id & ids & output & Htx & Hids & Hout & Hne)].
  - exists (Wrapped ErrWrongCoinbaseTransaction invalid_tx_msg [ArgInt 1; ArgInt 2]).
    split; reflexivity.
  - discriminate Hnil.
  - injection Htx as <- <-. injection Hids as <- <-.
    injection Hout as <-. apply Hne. reflexivity.
Qed.

(** A coinbase that pays the subsidy of 500 where 505 are due, the fee
    of 5 included. *)
Lemma C3_witness :
  stopped_by_coinbase_check
    (ValidateBlock (H := Demo.collaborators) Demo3.unpaid_fee_block Demo.parent
       Demo.canonical Demo.registry 0)
    (Wrap ErrWrongCoinbaseTransaction "dismatch output amount") /\
  calls (snd (ValidateBlock (H := Demo.collaborators) Demo3.unpaid_fee_block
                Demo.parent Demo.canonical Demo.registry 0)) =
    [EvVerify (copy_xpub [171]) (types.MarshalText Demo.canonical) [7] true;
     EvValidateTx 0 (Demo.tx_with 5 40 0 0 500) (Build_GasState 5 40 true) None;
     EvCheckCoinbaseAmount 505].
Proof.
  destruct (C3_coinbase_check_decides (H := Demo.collaborators)
              Demo3.unpaid_fee_block Demo.parent Demo.canonical Demo.registry 0
              [171] (Demo_authenticated 1 _) eq_refl)
    as (_ & Hamount & Hsteps).
  assert (Hstopped :
    stopped_by_coinbase_check
      (ValidateBlock (H := Demo.collaborators) Demo3.unpaid_fee_block Demo.parent
         Demo.canonical Demo.registry 0)
      (Wrap ErrWrongCoinbaseTransaction "dismatch output amount")).
  { apply (Hamount (Demo.tx_with 5 40 0 0 500) [] (Demo.h 500) []
             (bc.Build_Output (bc.Build_ValueSource (bc.Build_AssetAmount 500)))
             eq_refl eq_refl eq_refl).
    discriminate. }
  split; [exact Hstopped |].
  exact (proj1 (Hsteps _ Hstopped)).
Defined.

(** The second transaction is not gas-valid and the validator gives no
    error for it: the block is accepted, although its coinbase pays too
    much and its roots match nothing. *)
Lemma C4_witness :
  fst (ValidateBlock (H := Demo.collaborators) Demo3.silent_block Demo.parent
         Demo.canonical Demo.registry 0) = Returned None.
Proof.
  destruct (C4_invalid_transaction_ends_the_run (H := Demo.collaborators)
              Demo3.silent_block Demo.parent Demo.canonical Demo.registry 0
              [171] 1 Demo3.silent 0 500
              (validated_state Demo3.silent_block Demo.canonical [171]
                 [EvValidateTx 0 (Demo.tx_with 0 0 0 0 501)
                    (Build_GasState 0 0 true) None])
              (Build_GasState 0 0 false) None
              (Demo_authenticated 9 _) eq_refl eq_refl eq_refl eq_refl)
    as (_ & _ & Haccepted & _).
  apply Haccepted; reflexivity.
Defined.

(** Two sets of collaborators that answer alike and differ by an hour of
    the clock: the block that the first run refuses for its timestamp is
    accepted by the second. *)
Lemma C8_counterexample :
  (MaxTimeOffsetSeconds (Collaborators := Demo2.an_hour_later) =
     MaxTimeOffsetSeconds (Collaborators := Demo.collaborators) /\
   MaxBlockGas (Collaborators := Demo2.an_hour_later) =
     MaxBlockGas (Collaborators := Demo.collaborators) /\
   BlockSubsidy (Collaborators := Demo2.an_hour_later) =
     BlockSubsidy (Collaborators := Demo.collaborators) /\
   Verify (Collaborators := Demo2.an_hour_later) =
     Verify (Collaborators := Demo.collaborators) /\
   ValidateTx (Collaborators := Demo2.an_hour_later) =
     ValidateTx (Collaborators := Demo.collaborators) /\
   Output (Collaborators := Demo2.an_hour_later) =
     Output (Collaborators := Demo.collaborators) /\
   TxMerkleRoot (Collaborators := Demo2.an_hour_later) =
     TxMerkleRoot (Collaborators := Demo.collaborators) /\
   TxStatusMerkleRoot (Collaborators := Demo2.an_hour_later) =
     TxStatusMerkleRoot (Collaborators := Demo.collaborators) /\
   Wrapf_nil (Collaborators := Demo2.an_hour_later) =
     Wrapf_nil (Collaborators := Demo.collaborators)) /\
  ValidateBlock (H := Demo.collaborators) Demo3.late_block Demo.parent
    Demo.canonical Demo.registry 0 =
    (Returned (Some errBadTimestamp), mkSt Demo3.late_block []) /\
  fst (ValidateBlock (H := Demo2.an_hour_later) Demo3.late_block Demo.parent
         Demo.canonical Demo.registry 0) = Returned None /\
  bc.TransactionStatus
    (blk (snd (ValidateBlock (H := Demo2.an_hour_later) Demo3.late_block Demo.parent
                 Demo.canonical Demo.registry 0))) =
    Some (bc.TransactionStatus.mk 1 [bc.Build_TxVerifyResult false]).
Proof.
  split; [repeat split |]. split; [reflexivity |]. split; reflexivity.
Qed.
